(** * The SMPP submission service of vumi, [vumi/transports/smpp/smpp_service.py]

    A shallow embedding of [SmppService]: the byte-budget decision, the
    chunking loop, the three submission paths built on [submit_sm]
    (payload, SAR, UDH) and the dispatch of submission responses.

    Python 2 byte strings are lists of bytes, keyword arguments are finite
    maps from names to dynamically typed values, and the collaborators of the
    service (protocol session, sequence generator, multipart stash,
    transport) live in an explicit state that every operation threads. *)

From Equations Require Import Equations.
From Stdlib.Strings Require Import Byte.
From stdpp Require Import gmap strings list fin_maps.

Local Open Scope Z_scope.

(** ** Byte strings *)

(** A Python 2 [str]. *)
Abbreviation bytes := (list byte).

(** [ord(ch)] *)
Definition ord (ch : byte) : Z := Z.of_N (Byte.to_N ch).

(** [chr(n)]: a one character string, [ValueError] (here [None]) outside
    [range(256)]. *)
Definition chr (n : Z) : option byte :=
  if decide (0 ≤ n) then Byte.of_N (Z.to_N n) else None.

(** ** Module constants *)

Definition GSM_MAX_SMS_BYTES : nat := 140.
Definition GSM_MAX_SMS_7BIT_CHARS : nat := 160.

(** ** Byte budget and chunking *)

Module Split.

(** [all(0x20 <= ord(ch) <= 0x7f for ch in message)] *)
Definition printable (ch : byte) : bool :=
  (0x20 <=? ord ch) && (ord ch <=? 0x7f).

Definition _fits_in_one_message (message : bytes) : bool :=
  if (length message <=? GSM_MAX_SMS_BYTES)%nat then true
  else if (length message <=? GSM_MAX_SMS_7BIT_CHARS)%nat
       then forallb printable message
       else false.

(** [payload_length = GSM_MAX_SMS_BYTES - 10] *)
Definition payload_length : nat := (GSM_MAX_SMS_BYTES - 10)%nat.

(** The loop
[[
    while message:
        split_msg.append(message[:payload_length])
        message = message[payload_length:]
]]
    with its two variables as arguments. The message gets shorter in every
    round, which is what makes the loop end. *)
Equations? split_loop (message : bytes) (split_msg : list bytes)
  : list bytes by wf (length message) lt :=
  split_loop [] split_msg := split_msg;
  split_loop (ch :: rest) split_msg :=
    split_loop (drop payload_length (ch :: rest))
               (split_msg ++ [take payload_length (ch :: rest)]).
Proof. rewrite length_drop. cbn. lia. Qed.

Definition csm_split_message (message : bytes) : list bytes :=
  if _fits_in_one_message message then [message]
  else split_loop message [].

End Split.

Export Split.

(** ** Values, exceptions and the collaborators of the service *)

(** The value of an optional parameter of a PDU. *)
Inductive scalar :=
| SInt (n : Z)
| SStr (s : bytes).

(** The value of a keyword argument: an integer, a byte string or, for
    [optional_parameters], a dict of optional parameters. *)
Inductive value :=
| VInt (n : Z)
| VStr (s : bytes)
| VDict (d : gmap string scalar).

(** [**pdu_params] *)
Abbreviation kwargs := (gmap string value).

(** The three places that raise [EsmeProtocolError], told apart by their
    message. *)
Inductive esme_error :=
| CalledWhileNotConnected   (* '%s called while not connected.' *)
| ShortMessageNotAllowed    (* 'short_message not allowed when sending ...' *)
| EsmClassNotAllowed.       (* 'Cannot specify esm_class, ...' *)

Inductive exception :=
| EsmeProtocolError (why : esme_error)
| KeyError (key : string)
| TypeError
| AttributeError
| ValueError.

(** The names the specification gives to the two kinds of
    [EsmeProtocolError]. *)
Definition NotConnected : exception := EsmeProtocolError CalledWhileNotConnected.

Definition InvalidParameterCombination (e : exception) : Prop :=
  e = EsmeProtocolError ShortMessageNotAllowed \/
  e = EsmeProtocolError EsmClassNotAllowed.

(** Modelled from the spec: the Protocol Session (class [EsmeProtocol] of
    [vumi.transports.smpp.protocol], not part of the sources at hand).  It
    "accepts a submission request and returns the PDU sequence number(s)
    assigned"; the docstring of [submit_sm_long] makes that a "list of 1
    sequence number".  The session is reduced to the number it assigns
    next. *)
Record EsmeProtocol := { next_sequence_number : Z }.

(** A call the service makes on one of its collaborators. *)
Inductive call :=
| SequenceNext (drawn : Z)
    (* self.sequence_generator.next(), with the number it gave *)
| InitMultipartInfo (vumi_message_id : string) (parts : nat)
    (* self.message_stash.init_multipart_info(vumi_message_id, parts) *)
| ProtocolSubmitSm (vumi_message_id destination_addr : string) (kw : kwargs)
    (* protocol.submit_sm(vumi_message_id, destination_addr, **kw) *)
| HandleSubmitSmThrottled (message_id : string)
| HandleSubmitSmSuccess (message_id smpp_message_id pdu_status : string)
| HandleSubmitSmFailure (message_id smpp_message_id pdu_status : string).

(** The service object with what it reaches through its attributes.
    - [_protocol] is the current session, [None] while disconnected;
    - [sequence_generator] is modelled from the spec ("[next() → integer]"):
      the integer its next call returns;
    - [message_stash] is modelled from the spec ("message identifier → total
      segment count");
    - [calls] records, oldest first, every call made on a collaborator. *)
Record SmppService := {
  _protocol : option EsmeProtocol;
  sequence_generator : Z;
  message_stash : gmap string nat;
  calls : list call;
}.

Definition record_call (c : call) (self : SmppService) : SmppService :=
  {| _protocol := _protocol self;
     sequence_generator := sequence_generator self;
     message_stash := message_stash self;
     calls := calls self ++ [c] |}.

(** ** Computations that change the service or raise *)

Module Run.

Definition M (A : Type) : Type := SmppService -> (exception + A) * SmppService.

Definition ret {A} (a : A) : M A := fun self => (inr a, self).

Definition raise {A} (e : exception) : M A := fun self => (inl e, self).

Definition bind {A B} (m : M A) (k : A -> M B) : M B := fun self =>
  match m self with
  | (inl e, self') => (inl e, self')
  | (inr a, self') => k a self'
  end.

(** A step that cannot touch the service: it gives a result or raises. *)
Definition lift {A} (r : exception + A) : M A := fun self => (r, self).

End Run.

Export Run.

Notation "x <~ m ;; k" := (bind m (fun x => k))
  (at level 20, m at level 99, k at level 200,
   format "'[v' x  <~  m  ;;  '/' k ']'").

(** [self.get_protocol()] *)
Definition get_protocol : M (option EsmeProtocol) :=
  fun self => (inr (_protocol self), self).

(** Modelled from the spec: [RedisSequence.next] of
    [vumi.transports.smpp.sequence], not part of the sources at hand
    ("[next() → integer]", each call a number no other call gets).  This is
    [yield self.sequence_generator.next()]: the generator gives its current
    number and moves on. *)
Definition sequence_next : M Z := fun self =>
  let drawn := sequence_generator self in
  (inr drawn,
   {| _protocol := _protocol self;
      sequence_generator := drawn + 1;
      message_stash := message_stash self;
      calls := calls self ++ [SequenceNext drawn] |}).

(** Modelled from the spec: [init_multipart_info] of the transport's message
    stash, not part of the sources at hand ("[recordSegmentCount(messageId,
    total)]", an entry "message identifier → total segment count").  This is
    [yield self.message_stash.init_multipart_info(vumi_message_id, parts)]. *)
Definition init_multipart_info (vumi_message_id : string) (parts : nat)
  : M unit := fun self =>
  (inr tt,
   {| _protocol := _protocol self;
      sequence_generator := sequence_generator self;
      message_stash := <[vumi_message_id := parts]> (message_stash self);
      calls := calls self ++ [InitMultipartInfo vumi_message_id parts] |}).

(** Modelled from the spec: [EsmeProtocol.submit_sm], not part of the sources
    at hand ("accepts a submission request and returns the PDU sequence
    number(s) assigned").  This is
    [protocol.submit_sm(vumi_message_id, destination_addr, **kw)] on the
    session the service holds: the session assigns its next number, and the
    keyword arguments are recorded as they are when the call is made. *)
Definition protocol_submit_sm (protocol : EsmeProtocol)
    (vumi_message_id destination_addr : string) (kw : kwargs) : M (list Z) :=
  fun self =>
  (inr [next_sequence_number protocol],
   {| _protocol := Some {| next_sequence_number :=
                             next_sequence_number protocol + 1 |};
      sequence_generator := sequence_generator self;
      message_stash := message_stash self;
      calls := calls self
                 ++ [ProtocolSubmitSm vumi_message_id destination_addr kw] |}).

(** A call of a handler of the transport. *)
Definition transport_call (c : call) : M unit :=
  fun self => (inr tt, record_call c self).

(** ** Python's dicts and calls *)

(** [f(k1=v1, ..., **star)]: a keyword given both ways is a [TypeError]
    raised by the call itself, before [f] is entered. *)
Definition keywords (explicit : list (string * value)) (star : kwargs)
  : exception + kwargs :=
  if forallb (fun kv => bool_decide (star !! kv.1 = None)) explicit
  then inr (foldr (fun kv kw => <[kv.1 := kv.2]> kw) star explicit)
  else inl TypeError.

(** [pdu_params.pop(key)]: the value and the dict without the key, or
    [KeyError]. *)
Definition pop (key : string) (pdu_params : kwargs)
  : exception + (value * kwargs) :=
  match pdu_params !! key with
  | Some v => inr (v, delete key pdu_params)
  | None => inl (KeyError key)
  end.

(** [pdu_params.pop('optional_parameters', {}).copy()]: only a dict has
    [copy]. *)
Definition pop_optional_parameters (pdu_params : kwargs)
  : exception + (gmap string scalar * kwargs) :=
  match default (VDict ∅) (pdu_params !! "optional_parameters") with
  | VDict d => inr (d, delete "optional_parameters" pdu_params)
  | _ => inl AttributeError
  end.

(** The message is documented as a [str] ("[:param str message:]"); any
    other value is reported as a [TypeError]. *)
Definition as_str (v : value) : exception + bytes :=
  match v with
  | VStr s => inr s
  | _ => inl TypeError
  end.

(** [chr(n)] with its [ValueError]. *)
Definition chr_or_raise (n : Z) : exception + byte :=
  match chr n with
  | Some ch => inr ch
  | None => inl ValueError
  end.

(** ['%02x' % n] for the [n] of a byte: two lower case hex digits. *)
Definition hex_digit (d : Z) : byte :=
  nth (Z.to_nat d)
      ["0"; "1"; "2"; "3"; "4"; "5"; "6"; "7";
       "8"; "9"; "a"; "b"; "c"; "d"; "e"; "f"]%byte "0"%byte.

Definition format_02x (n : Z) : bytes := [hex_digit (n / 16); hex_digit (n mod 16)].

(** [''.join('%02x' % ord(c) for c in long_message)] *)
Definition hexlify (long_message : bytes) : bytes :=
  concat (map (fun c => format_02x (ord c)) long_message).

(** Reading hex digits back, as [binascii.unhexlify] does; only used to say
    what [hexlify] wrote. *)
Definition hex_value (digit : byte) : option Z :=
  let n := ord digit in
  if (48 <=? n) && (n <=? 57) then Some (n - 48)
  else if (97 <=? n) && (n <=? 102) then Some (n - 87)
  else None.

Fixpoint unhexlify (digits : bytes) : option bytes :=
  match digits with
  | [] => Some []
  | high :: low :: rest =>
      match hex_value high, hex_value low, unhexlify rest with
      | Some h, Some l, Some decoded =>
          match chr (16 * h + l) with
          | Some ch => Some (ch :: decoded)
          | None => None
          end
      | _, _, _ => None
      end
  | [_] => None
  end.

(** ** The service *)

Module Service.

Definition throttle_statuses : list string :=
  ["ESME_RTHROTTLED"; "ESME_RMSGQFUL"]%string.

(** [handle_submit_sm_throttled] *)
Definition handle_submit_sm_throttled (message_id : string) : M unit :=
  transport_call (HandleSubmitSmThrottled message_id).

(** [handle_submit_sm_resp]: [func] starts as the failure handler of the
    transport and becomes its success handler on ['ESME_ROK']. *)
Definition handle_submit_sm_resp (message_id smpp_message_id pdu_status : string)
  : M unit :=
  if bool_decide (pdu_status ∈ throttle_statuses)
  then handle_submit_sm_throttled message_id
  else
    let func := HandleSubmitSmFailure in
    let func := if bool_decide (pdu_status = "ESME_ROK"%string)
                then HandleSubmitSmSuccess else func in
    transport_call (func message_id smpp_message_id pdu_status).

(** [submit_sm] under its decorator [proxy_protocol]: the session is looked
    up at every call and its absence raises.  With a session the wrapper
    calls [func(self, protocol, *args, **kw)]: the session fills the
    parameter [protocol] of [submit_sm], and a keyword of that name in [kw]
    gives it a second value, which is a [TypeError] of the call. *)
Definition submit_sm (vumi_message_id destination_addr : string) (kw : kwargs)
  : M (list Z) :=
  protocol <~ get_protocol ;;
  match protocol with
  | None => raise (EsmeProtocolError CalledWhileNotConnected)
  | Some protocol =>
      if bool_decide (is_Some (kw !! "protocol"))
      then raise TypeError
      else protocol_submit_sm protocol vumi_message_id destination_addr kw
  end.

Definition submit_sm_long (vumi_message_id destination_addr : string)
    (long_message : bytes) (pdu_params : kwargs) : M (list Z) :=
  if bool_decide (is_Some (pdu_params !! "short_message"))
  then raise (EsmeProtocolError ShortMessageNotAllowed)
  else
    popped <~ lift (pop_optional_parameters pdu_params) ;;
    let '(optional_parameters, pdu_params) := popped in
    let optional_parameters :=
      <["message_payload" := SStr (hexlify long_message)]> optional_parameters in
    kw <~ lift (keywords [("short_message", VStr []);
                          ("sm_length", VInt 0);
                          ("optional_parameters", VDict optional_parameters)]
                         pdu_params) ;;
    submit_sm vumi_message_id destination_addr kw.

(** The body of the [for] loop of [submit_csm_sar] and the rounds after it.
    [i] is the index [enumerate] gives to the first chunk of [split_msg];
    [total] is [len(split_msg)] of the whole list.  [optional_parameters] is
    the one dict all rounds update and pass on. *)
Fixpoint sar_segments (vumi_message_id destination_addr : string)
    (ref_num : Z) (total : nat) (i : nat) (split_msg : list bytes)
    (pdu_params : kwargs) (optional_parameters : gmap string scalar)
    (sequence_numbers : list Z) : M (list Z) :=
  match split_msg with
  | [] => ret sequence_numbers
  | msg :: rest =>
      let optional_parameters :=
        <["sar_segment_seqnum" := SInt (Z.of_nat i + 1)]>
          (<["sar_total_segments" := SInt (Z.of_nat total)]>
             (<["sar_msg_ref_num" := SInt (ref_num mod 0xFFFF)]>
                optional_parameters)) in
      kw <~ lift (keywords [("short_message", VStr msg);
                            ("optional_parameters", VDict optional_parameters)]
                           pdu_params) ;;
      sequence_number <~ submit_sm vumi_message_id destination_addr kw ;;
      sar_segments vumi_message_id destination_addr ref_num total (S i) rest
                   pdu_params optional_parameters
                   (sequence_numbers ++ sequence_number)
  end.

Definition submit_csm_sar (vumi_message_id destination_addr : string)
    (pdu_params : kwargs) : M (list Z) :=
  popped <~ lift (pop "short_message" pdu_params) ;;
  let '(short_message, pdu_params) := popped in
  message <~ lift (as_str short_message) ;;
  let split_msg := csm_split_message message in
  match split_msg with
  | [only] =>
      (* There is only one part, so send it without SAR stuff. *)
      kw <~ lift (keywords [("short_message", VStr only)] pdu_params) ;;
      submit_sm vumi_message_id destination_addr kw
  | _ =>
      popped <~ lift (pop_optional_parameters pdu_params) ;;
      let '(optional_parameters, pdu_params) := popped in
      ref_num <~ sequence_next ;;
      recorded <~ init_multipart_info vumi_message_id (length split_msg) ;;
      sar_segments vumi_message_id destination_addr ref_num (length split_msg)
                   0 split_msg pdu_params optional_parameters []
  end.

(** The body of the [for] loop of [submit_csm_udh] and the rounds after
    it. *)
Fixpoint udh_segments (vumi_message_id destination_addr : string)
    (ref_num : Z) (total : nat) (i : nat) (split_msg : list bytes)
    (pdu_params : kwargs) (sequence_numbers : list Z) : M (list Z) :=
  match split_msg with
  | [] => ret sequence_numbers
  | msg :: rest =>
      let pdu_params := <["esm_class" := VInt 0x40]> pdu_params in
      reference <~ lift (chr_or_raise (ref_num mod 0xFF)) ;;
      parts <~ lift (chr_or_raise (Z.of_nat total)) ;;
      index <~ lift (chr_or_raise (Z.of_nat i + 1)) ;;
      let udh := [x05; x00; x03; reference; parts; index] in
      let short_message := udh ++ msg in
      kw <~ lift (keywords [("short_message", VStr short_message)]
                           pdu_params) ;;
      sequence_number <~ submit_sm vumi_message_id destination_addr kw ;;
      udh_segments vumi_message_id destination_addr ref_num total (S i) rest
                   pdu_params (sequence_numbers ++ sequence_number)
  end.

Definition submit_csm_udh (vumi_message_id destination_addr : string)
    (pdu_params : kwargs) : M (list Z) :=
  if bool_decide (is_Some (pdu_params !! "esm_class"))
  then raise (EsmeProtocolError EsmClassNotAllowed)
  else
    popped <~ lift (pop "short_message" pdu_params) ;;
    let '(short_message, pdu_params) := popped in
    message <~ lift (as_str short_message) ;;
    let split_msg := csm_split_message message in
    match split_msg with
    | [only] =>
        (* There is only one part, so send it without UDH stuff. *)
        kw <~ lift (keywords [("short_message", VStr only)] pdu_params) ;;
        submit_sm vumi_message_id destination_addr kw
    | _ =>
        ref_num <~ sequence_next ;;
        recorded <~ init_multipart_info vumi_message_id (length split_msg) ;;
        udh_segments vumi_message_id destination_addr ref_num
                     (length split_msg) 0 split_msg pdu_params []
    end.

End Service.

Export Service.

(** ** Sample runs *)

Module Samples.

Definition connected (sequence : Z) : SmppService :=
  {| _protocol := Some {| next_sequence_number := 1 |};
     sequence_generator := sequence;
     message_stash := ∅;
     calls := [] |}.

Definition disconnected (sequence : Z) : SmppService :=
  {| _protocol := None;
     sequence_generator := sequence;
     message_stash := ∅;
     calls := [] |}.

(** 161 printable bytes: two chunks. *)
Definition long_text : bytes := replicate 161 "a"%byte.

(** ["elephant"] *)
Definition elephant : bytes :=
  ["e"; "l"; "e"; "p"; "h"; "a"; "n"; "t"]%byte.

Definition send (message : bytes) : kwargs :=
  {[ "short_message"%string := VStr message ]}.

End Samples.

(** ** What a run leaves behind *)

Module Trace.

(** The keyword arguments of segment [i] (counted from 0) of a message
    sent by [submit_csm_sar]: the three SAR parameters written over the
    optional parameters, the chunk as short message. *)
Definition sar_optional (ref_num : Z) (total i : nat)
    (optional_parameters : gmap string scalar) : gmap string scalar :=
  <["sar_segment_seqnum" := SInt (Z.of_nat i + 1)]>
    (<["sar_total_segments" := SInt (Z.of_nat total)]>
       (<["sar_msg_ref_num" := SInt (ref_num mod 0xFFFF)]>
          optional_parameters)).

Definition sar_kw (ref_num : Z) (total : nat) (pdu_params : kwargs)
    (optional_parameters : gmap string scalar) (i : nat) (msg : bytes)
  : kwargs :=
  <["short_message" := VStr msg]>
    (<["optional_parameters" :=
         VDict (sar_optional ref_num total i optional_parameters)]>
       pdu_params).

(** The keyword arguments of the one submission of [submit_sm_long]. *)
Definition payload_kw (pdu_params : kwargs)
    (optional_parameters : gmap string scalar) (long_message : bytes)
  : kwargs :=
  <["short_message" := VStr []]>
    (<["sm_length" := VInt 0]>
       (<["optional_parameters" :=
            VDict (<["message_payload" := SStr (hexlify long_message)]>
                     optional_parameters)]>
          (delete "optional_parameters" pdu_params))).

(** The byte [chr] gives for a number below 256. *)
Definition byte_of (n : Z) : byte := default x00 (chr n).

(** The header [submit_csm_udh] puts before segment [i] (counted from 0). *)
Definition udh_header (ref_num : Z) (total i : nat) : bytes :=
  [x05; x00; x03;
   byte_of (ref_num mod 0xFF); byte_of (Z.of_nat total);
   byte_of (Z.of_nat i + 1)].

Definition udh_kw (ref_num : Z) (total : nat) (pdu_params : kwargs)
    (i : nat) (msg : bytes) : kwargs :=
  <["short_message" := VStr (udh_header ref_num total i ++ msg)]>
    (<["esm_class" := VInt 0x40]> pdu_params).

(** The numbers a session assigns to [count] submissions in a row. *)
Fixpoint assigned (first : Z) (count : nat) : list Z :=
  match count with
  | O => []
  | S count => first :: assigned (first + 1) count
  end.

(** Reading a list of calls from its oldest: the stash entry
    [vumi_message_id -> parts] is written, and no segment was submitted
    before it. *)
Fixpoint stash_recorded_first (vumi_message_id : string) (parts : nat)
    (made : list call) : bool :=
  match made with
  | [] => false
  | InitMultipartInfo id n :: _ =>
      bool_decide (id = vumi_message_id) && bool_decide (n = parts)
  | ProtocolSubmitSm _ _ _ :: _ => false
  | _ :: later => stash_recorded_first vumi_message_id parts later
  end.

(** The service after a session [protocol] has taken [count] submissions and
    the calls [made] were added to the record. *)
Definition after_submissions (self : SmppService) (protocol : EsmeProtocol)
    (count : nat) (made : list call) : SmppService :=
  {| _protocol := Some {| next_sequence_number :=
                            next_sequence_number protocol + Z.of_nat count |};
     sequence_generator := sequence_generator self;
     message_stash := message_stash self;
     calls := calls self ++ made |}.

(** The service after one reference number was drawn and the stash entry
    written. *)
Definition after_stash (self : SmppService) (vumi_message_id : string)
    (parts : nat) : SmppService :=
  {| _protocol := _protocol self;
     sequence_generator := sequence_generator self + 1;
     message_stash := <[vumi_message_id := parts]> (message_stash self);
     calls := calls self ++ [SequenceNext (sequence_generator self);
                             InitMultipartInfo vumi_message_id parts] |}.

(** What a recorded submission carried: an optional parameter, the short
    message, a plain parameter. *)
Definition submitted_optional (key : string) (c : call) : option scalar :=
  match c with
  | ProtocolSubmitSm _ _ kw =>
      match kw !! "optional_parameters" with
      | Some (VDict d) => d !! key
      | _ => None
      end
  | _ => None
  end.

Definition submitted_short_message (c : call) : option bytes :=
  match c with
  | ProtocolSubmitSm _ _ kw =>
      match kw !! "short_message" with
      | Some (VStr s) => Some s
      | _ => None
      end
  | _ => None
  end.

Definition submitted_parameter (key : string) (c : call) : option value :=
  match c with
  | ProtocolSubmitSm _ _ kw => kw !! key
  | _ => None
  end.

End Trace.

Export Trace.

(** ** Reading the record of calls *)

Module Sent.

(** The short messages of the submissions among [made], oldest first. *)
Definition short_messages (made : list call) : list bytes :=
  omap submitted_short_message made.

(** One of the characters [0123456789abcdef]. *)
Definition lower_hex (ch : byte) : bool :=
  ((48 <=? ord ch) && (ord ch <=? 57)) || ((97 <=? ord ch) && (ord ch <=? 102)).

(** The submissions among [made]. *)
Definition is_submission (c : call) : bool :=
  match c with
  | ProtocolSubmitSm _ _ _ => true
  | _ => false
  end.

Definition submissions (made : list call) : list call :=
  List.filter is_submission made.

(** What the guard of [submit_sm] gives a path built on it: without a
    session the path raises, stays without a session and adds no submission;
    with a session it does not raise "not connected". *)
Definition guarded (self : SmppService)
    (run : (exception + list Z) * SmppService) : Prop :=
  (_protocol self = None ->
     (exists e, run.1 = inl e) /\
     _protocol run.2 = None /\
     submissions (calls run.2) = submissions (calls self)) /\
  (is_Some (_protocol self) -> run.1 <> inl NotConnected).

End Sent.

Export Sent.

(** ** Bind state *)

(** [get_bind_state] and [is_bound] read the session the service holds.  The
    class [EsmeProtocol] is not part of the sources at hand: its constant
    [CLOSED_STATE], its attribute [state] and its method [is_bound] are
    taken as they come. *)
Section BindState.

Variable bind_state : Type.
Variable CLOSED_STATE : bind_state.
Variable state : EsmeProtocol -> bind_state.
Variable protocol_is_bound : EsmeProtocol -> bool.

Definition get_bind_state (self : SmppService) : bind_state :=
  match _protocol self with
  | None => CLOSED_STATE
  | Some protocol => state protocol
  end.

Definition is_bound (self : SmppService) : bool :=
  match _protocol self with
  | Some protocol => protocol_is_bound protocol
  | None => false
  end.

End BindState.

(** * Properties *)

Example split_161 :
  length <$> csm_split_message (replicate 161 "a"%byte) = [130; 31]%nat.
Proof. vm_compute. reflexivity. Qed.

(** ** Facts about the chunking loop *)

Section SplitFacts.

Implicit Types (message : bytes) (split_msg : list bytes).

Lemma payload_length_130 : payload_length = 130%nat.
Proof. reflexivity. Qed.

(** Induction on messages by their length, the measure of the loop. *)
Lemma message_length_ind (P : bytes -> Prop) :
  (forall message,
      (forall shorter : bytes, (length shorter < length message)%nat -> P shorter) ->
      P message) ->
  forall message, P message.
Proof.
  intros step message.
  induction message as [message IH] using (induction_ltof1 _ (@length byte)).
  apply step. exact IH.
Qed.

Lemma drop_payload_shorter (ch : byte) (rest : bytes) :
  (length (drop payload_length (ch :: rest)) < length (ch :: rest))%nat.
Proof. rewrite length_drop, payload_length_130. cbn. lia. Qed.

(** The accumulator of the loop only grows at its end. *)
Lemma split_loop_acc message split_msg :
  split_loop message split_msg = split_msg ++ split_loop message [].
Proof.
  revert split_msg.
  induction message as [message IH] using message_length_ind.
  intros split_msg. destruct message as [|ch rest]; simp split_loop.
  - by rewrite app_nil_r.
  - rewrite (IH _ (drop_payload_shorter ch rest) (split_msg ++ _)).
    rewrite (IH _ (drop_payload_shorter ch rest) ([] ++ _)).
    by rewrite <- app_assoc.
Qed.

(** One round of the loop on a message that is not empty. *)
Lemma split_loop_step message :
  message <> [] ->
  split_loop message [] =
    take payload_length message :: split_loop (drop payload_length message) [].
Proof.
  destruct message as [|ch rest]; [done | intros _].
  simp split_loop. by rewrite split_loop_acc.
Qed.

Lemma split_loop_nil : split_loop [] [] = [].
Proof. by simp split_loop. Qed.

(** Joining the chunks gives the message back. *)
Lemma split_loop_concat message : concat (split_loop message []) = message.
Proof.
  induction message as [message IH] using message_length_ind.
  destruct message as [|ch rest]; [by rewrite split_loop_nil |].
  rewrite split_loop_step by done. cbn [concat].
  rewrite (IH _ (drop_payload_shorter ch rest)).
  apply take_drop.
Qed.

(** Chunk [i] is the slice [message[130*i : 130*i + 130]]. *)
Lemma split_loop_lookup message (i : nat) :
  (i * payload_length < length message)%nat ->
  split_loop message [] !! i =
    Some (take payload_length (drop (i * payload_length) message)).
Proof.
  revert i. induction message as [message IH] using message_length_ind.
  intros i Hi. destruct message as [|ch rest]; [cbn in Hi; lia |].
  rewrite split_loop_step by done.
  destruct i as [|i]; [done |].
  cbn [lookup list_lookup].
  change (split_loop (drop payload_length (ch :: rest)) [] !! i =
          Some (take payload_length (drop (S i * payload_length) (ch :: rest)))).
  rewrite (IH _ (drop_payload_shorter ch rest)).
  - by rewrite drop_drop.
  - rewrite length_drop. lia.
Qed.

(** The number of chunks is the length divided by 130, rounded up. *)
Lemma split_loop_length message :
  length (split_loop message []) =
    ((length message + (payload_length - 1)) / payload_length)%nat.
Proof.
  induction message as [message IH] using message_length_ind.
  destruct message as [|ch rest]; [by rewrite split_loop_nil |].
  rewrite split_loop_step by done. cbn [length].
  rewrite (IH _ (drop_payload_shorter ch rest)), length_drop.
  rewrite payload_length_130. cbn [length].
  destruct (decide (length rest < 129)%nat) as [Hlt|Hge].
  - replace (S (length rest) - 130)%nat with 0%nat by lia.
    rewrite (Nat.div_small (0 + _)) by lia.
    apply (Nat.div_unique _ 130 1 (length rest)%nat); lia.
  - replace (S (length rest) + (130 - 1))%nat
      with ((S (length rest) - 130 + (130 - 1)) + 1 * 130)%nat by lia.
    rewrite Nat.div_add by lia. lia.
Qed.

Lemma fits_false_length message :
  _fits_in_one_message message = false ->
  (GSM_MAX_SMS_BYTES < length message)%nat.
Proof.
  unfold _fits_in_one_message.
  destruct (Nat.leb_spec (length message) GSM_MAX_SMS_BYTES); [done | lia].
Qed.

Lemma printable_range ch : printable ch = true <-> 0x20 ≤ ord ch ≤ 0x7f.
Proof. unfold printable. rewrite andb_true_iff, !Z.leb_le. tauto. Qed.

Lemma forallb_printable message :
  forallb printable message = true <->
  Forall (fun ch => 0x20 ≤ ord ch ≤ 0x7f) message.
Proof.
  rewrite forallb_forall, Forall_forall.
  split; intros H ch Hch.
  - apply printable_range, H. by apply list_elem_of_In.
  - apply printable_range, H. by apply list_elem_of_In.
Qed.

End SplitFacts.

Example sar_elephant :
  Service.submit_csm_sar "abc123" "dest_addr" (Samples.send Samples.elephant)
                         (Samples.connected 7)
  = (inr [1],
     {| _protocol := Some {| next_sequence_number := 2 |};
        sequence_generator := 7;
        message_stash := ∅;
        calls := [ProtocolSubmitSm "abc123" "dest_addr"
                    (Samples.send Samples.elephant)] |}).
Proof. vm_compute. reflexivity. Qed.

(** ** The chunks of a message that does not fit *)

Section ChunkFacts.

Implicit Types (message : bytes).

Lemma chunk_index_in_range message (i : nat) :
  (i < length (split_loop message []))%nat <->
  (i * payload_length < length message)%nat.
Proof.
  rewrite split_loop_length, payload_length_130.
  change (130 - 1)%nat with 129%nat.
  pose proof (Nat.div_mod_eq (length message + 129) 130) as Hdiv.
  pose proof (Nat.mod_upper_bound (length message + 129) 130) as Hmod.
  lia.
Qed.

Lemma split_loop_chunk message (i : nat) chunk :
  split_loop message [] !! i = Some chunk ->
  chunk = take payload_length (drop (i * payload_length) message) /\
  (i * payload_length < length message)%nat.
Proof.
  intros Hi.
  assert (i * payload_length < length message)%nat as Hlt.
  { apply chunk_index_in_range. by eapply lookup_lt_Some. }
  rewrite split_loop_lookup in Hi by done. by simplify_eq.
Qed.

Lemma split_loop_chunk_nonempty message :
  Forall (fun chunk => chunk <> []) (split_loop message []).
Proof.
  apply Forall_lookup. intros i chunk Hi.
  apply split_loop_chunk in Hi as [-> Hlt].
  intros Hnil. apply (f_equal length) in Hnil.
  rewrite length_take, length_drop, payload_length_130 in Hnil.
  rewrite payload_length_130 in Hlt. cbn [length] in Hnil. lia.
Qed.

Lemma split_loop_chunk_full message (i : nat) chunk :
  split_loop message [] !! i = Some chunk ->
  (S i < length (split_loop message []))%nat ->
  length chunk = payload_length.
Proof.
  intros Hi Hnext.
  apply split_loop_chunk in Hi as [-> _].
  apply chunk_index_in_range in Hnext.
  rewrite length_take, length_drop. rewrite payload_length_130 in *. lia.
Qed.

Lemma split_loop_last message :
  message <> [] ->
  last (split_loop message []) =
    Some (drop ((length (split_loop message []) - 1) * payload_length) message).
Proof.
  intros Hne.
  assert (0 < length (split_loop message []))%nat as Hpos.
  { apply chunk_index_in_range. destruct message; [done | cbn; lia]. }
  rewrite last_lookup.
  replace (Init.Nat.pred (length (split_loop message [])))
    with (length (split_loop message []) - 1)%nat by lia.
  rewrite split_loop_lookup by (apply chunk_index_in_range; lia).
  f_equal. apply take_ge. rewrite length_drop.
  assert (~ (length (split_loop message []) * payload_length
             < length message)%nat) as Hend.
  { rewrite <- chunk_index_in_range. lia. }
  rewrite payload_length_130 in *. lia.
Qed.

(** A message that does not fit gives at least two chunks. *)
Lemma split_loop_many message :
  _fits_in_one_message message = false ->
  (1 < length (split_loop message []))%nat.
Proof.
  intros Hfit%fits_false_length. apply chunk_index_in_range.
  rewrite payload_length_130. unfold GSM_MAX_SMS_BYTES in Hfit. lia.
Qed.

End ChunkFacts.

(** ** The byte budget decision and the split *)

(** C4: [_fits_in_one_message] answers true for every message of at most 140
    bytes, true for every message of at most 160 bytes whose bytes all lie
    in the range from 0x20 to 0x7F (both included), and false for every other
    message. *)
Theorem fits_in_one_message_decision (message : bytes) :
  ((length message <= 140)%nat ->
     _fits_in_one_message message = true) /\
  ((length message <= 160)%nat ->
     Forall (fun ch => 0x20 ≤ ord ch ≤ 0x7f) message ->
     _fits_in_one_message message = true) /\
  (~ (length message <= 140)%nat ->
     ~ ((length message <= 160)%nat /\
        Forall (fun ch => 0x20 ≤ ord ch ≤ 0x7f) message) ->
     _fits_in_one_message message = false).
Proof.
  unfold _fits_in_one_message, GSM_MAX_SMS_BYTES, GSM_MAX_SMS_7BIT_CHARS.
  destruct (Nat.leb_spec (length message) 140) as [Hshort|Hlong].
  { split; [done | split; [done | lia]]. }
  destruct (Nat.leb_spec (length message) 160) as [Hmid|Hbig].
  - split; [lia | split].
    + intros _ Hall. by apply forallb_printable.
    + intros _ Hnot. apply not_true_is_false. intros Hall.
      apply Hnot. split; [done | by apply forallb_printable].
  - split; [lia | split; [lia | done]].
Qed.

Lemma fits_in_one_message_decision_witness :
  _fits_in_one_message Samples.elephant = true /\
  _fits_in_one_message (replicate 150 "a"%byte) = true /\
  _fits_in_one_message (replicate 150 x80) = false.
Proof.
  split; [| split].
  - apply (proj1 (fits_in_one_message_decision Samples.elephant)).
    vm_compute. lia.
  - apply (proj1 (proj2 (fits_in_one_message_decision (replicate 150 "a"%byte)))).
    + rewrite length_replicate. lia.
    + apply Forall_replicate. vm_compute. split; discriminate.
  - apply (proj2 (proj2 (fits_in_one_message_decision (replicate 150 x80)))).
    + rewrite length_replicate. lia.
    + intros [_ Hall].
      change (replicate 150 x80) with (x80 :: replicate 149 x80) in Hall.
      apply Forall_inv in Hall as [_ Hle]. vm_compute in Hle. by apply Hle.
Defined.

(** C5: a message that fits in one PDU is returned whole, as the only
    element; a message that does not fit is cut into consecutive slices of
    130 bytes, the last chunk holding the rest; a message of 161 printable
    ASCII bytes gives two chunks, of 130 and of 31 bytes. *)
Theorem csm_split_message_chunks (message : bytes) :
  (_fits_in_one_message message = true ->
     csm_split_message message = [message]) /\
  (_fits_in_one_message message = false ->
     let chunks := csm_split_message message in
     length chunks = ((length message + 129) / 130)%nat /\
     (forall i : nat, (i < length chunks)%nat ->
        chunks !! i = Some (take 130 (drop (i * 130) message))) /\
     last chunks = Some (drop ((length chunks - 1) * 130) message)) /\
  (length message = 161%nat ->
     Forall (fun ch => 0x20 ≤ ord ch ≤ 0x7f) message ->
     exists first second,
       csm_split_message message = [first; second] /\
       length first = 130%nat /\ length second = 31%nat).
Proof.
  unfold csm_split_message. split; [| split].
  - by intros ->.
  - intros Hfit. rewrite Hfit. cbn zeta. split; [| split].
    + apply split_loop_length.
    + intros i Hi. apply split_loop_lookup. by apply chunk_index_in_range.
    + apply split_loop_last. intros ->. discriminate Hfit.
  - intros Hlen _.
    assert (_fits_in_one_message message = false) as Hfit.
    { unfold _fits_in_one_message. by rewrite Hlen. }
    rewrite Hfit.
    pose proof (split_loop_length message) as Hn.
    rewrite Hlen in Hn. change ((161 + (payload_length - 1)) / payload_length)%nat
      with 2%nat in Hn.
    pose proof (split_loop_lookup message 0) as H0.
    pose proof (split_loop_lookup message 1) as H1.
    rewrite Hlen, payload_length_130 in H0, H1.
    destruct (split_loop message []) as [|first [|second [|third more]]];
      try discriminate Hn.
    exists first, second. split; [done |].
    specialize (H0 ltac:(lia)). specialize (H1 ltac:(lia)).
    cbn in H0, H1. simplify_eq.
    repeat (rewrite length_take || rewrite length_drop). rewrite !Hlen. lia.
Qed.

Lemma csm_split_message_chunks_witness :
  csm_split_message Samples.elephant = [Samples.elephant] /\
  length (csm_split_message (replicate 300 x80)) = 3%nat /\
  (exists first second,
     csm_split_message Samples.long_text = [first; second] /\
     length first = 130%nat /\ length second = 31%nat).
Proof.
  split; [| split].
  - apply (proj1 (csm_split_message_chunks Samples.elephant)).
    vm_compute. reflexivity.
  - apply (proj1 (proj2 (csm_split_message_chunks (replicate 300 x80)))
             ltac:(vm_compute; reflexivity)).
  - apply (proj2 (proj2 (csm_split_message_chunks Samples.long_text))).
    + vm_compute. reflexivity.
    + apply Forall_replicate. vm_compute. split; discriminate.
Defined.

(** C10: the split is never empty and joining its chunks, in order, gives
    the message back byte for byte; when the message does not fit in one
    PDU, every chunk but the last has exactly 130 bytes and no chunk is
    empty. *)
Theorem csm_split_message_lossless (message : bytes) :
  csm_split_message message <> [] /\
  concat (csm_split_message message) = message /\
  (_fits_in_one_message message = false ->
     (forall (i : nat) chunk,
        csm_split_message message !! i = Some chunk ->
        (S i < length (csm_split_message message))%nat ->
        length chunk = 130%nat) /\
     Forall (fun chunk => chunk <> []) (csm_split_message message)).
Proof.
  unfold csm_split_message.
  destruct (_fits_in_one_message message) eqn:Hfit.
  - split; [done | split; [cbn; apply app_nil_r | done]].
  - split; [| split].
    + pose proof (split_loop_many message Hfit) as Hmany.
      intros Hnil. rewrite Hnil in Hmany. cbn in Hmany. lia.
    + apply split_loop_concat.
    + intros _. split.
      * intros i chunk Hi Hnext. by eapply split_loop_chunk_full.
      * apply split_loop_chunk_nonempty.
Qed.

Lemma csm_split_message_lossless_witness :
  Forall (fun chunk => chunk <> []) (csm_split_message Samples.long_text).
Proof.
  apply (proj2 (proj2 (csm_split_message_lossless Samples.long_text))).
  vm_compute. reflexivity.
Defined.

(** ** Dispatch of submission responses *)

Lemma throttle_status_iff (pdu_status : string) :
  pdu_status ∈ throttle_statuses <->
  pdu_status = "ESME_RTHROTTLED"%string \/ pdu_status = "ESME_RMSGQFUL"%string.
Proof.
  unfold throttle_statuses. rewrite !elem_of_cons, elem_of_nil. tauto.
Qed.

(** C6: whatever the status of a submission response, exactly one handler of
    the transport is called: the throttle handler for [ESME_RTHROTTLED] and
    [ESME_RMSGQFUL], the success handler for [ESME_ROK], the failure handler
    for every other status. *)
Theorem handle_submit_sm_resp_routes (self : SmppService)
    (message_id smpp_message_id pdu_status : string) :
  exists handler,
    handle_submit_sm_resp message_id smpp_message_id pdu_status self
      = (inr tt, record_call handler self) /\
    (pdu_status = "ESME_RTHROTTLED"%string \/
     pdu_status = "ESME_RMSGQFUL"%string ->
       handler = HandleSubmitSmThrottled message_id) /\
    (pdu_status = "ESME_ROK"%string ->
       handler = HandleSubmitSmSuccess message_id smpp_message_id pdu_status) /\
    (pdu_status <> "ESME_RTHROTTLED"%string ->
     pdu_status <> "ESME_RMSGQFUL"%string ->
     pdu_status <> "ESME_ROK"%string ->
       handler = HandleSubmitSmFailure message_id smpp_message_id pdu_status).
Proof.
  unfold handle_submit_sm_resp, handle_submit_sm_throttled, transport_call.
  rewrite (bool_decide_ext _ _ (throttle_status_iff pdu_status)).
  case_bool_decide as Hthrottle.
  - eexists. split; [reflexivity |]. split; [done |].
    split; [intros -> | intros H1 H2]; destruct Hthrottle; done.
  - case_bool_decide as Hok.
    + eexists. split; [reflexivity |]. split; [done |].
      split; [done | congruence].
    + eexists. split; [reflexivity |]. split; [done |].
      split; [done | done].
Qed.

Lemma handle_submit_sm_resp_routes_witness :
  handle_submit_sm_resp "abc123" "smpp-1" "ESME_RMSGQFUL" (Samples.connected 0)
  = (inr tt,
     record_call (HandleSubmitSmThrottled "abc123") (Samples.connected 0)).
Proof.
  destruct (handle_submit_sm_resp_routes (Samples.connected 0)
              "abc123" "smpp-1" "ESME_RMSGQFUL")
    as (handler & Hrun & Hthrottled & _).
  rewrite Hrun, Hthrottled; [reflexivity | by right].
Defined.

(** ** Parameters the paths refuse *)

(** C7: a call of [submit_sm_long] that is given [short_message], and a call
    of [submit_csm_udh] that is given [esm_class], raises the
    [EsmeProtocolError] of an invalid parameter combination and leaves the
    service as it was: nothing was submitted, the stash was not written and
    the sequence generator was not called. *)
Theorem invalid_parameter_combination (self : SmppService)
    (vumi_message_id destination_addr : string) (long_message : bytes)
    (pdu_params : kwargs) :
  (is_Some (pdu_params !! "short_message") ->
     submit_sm_long vumi_message_id destination_addr long_message pdu_params
                    self
       = (inl (EsmeProtocolError ShortMessageNotAllowed), self) /\
     InvalidParameterCombination (EsmeProtocolError ShortMessageNotAllowed)) /\
  (is_Some (pdu_params !! "esm_class") ->
     submit_csm_udh vumi_message_id destination_addr pdu_params self
       = (inl (EsmeProtocolError EsmClassNotAllowed), self) /\
     InvalidParameterCombination (EsmeProtocolError EsmClassNotAllowed)).
Proof.
  unfold submit_sm_long, submit_csm_udh, InvalidParameterCombination.
  split; intros Hgiven; rewrite bool_decide_eq_true_2 by done;
    (split; [reflexivity | by auto]).
Qed.

Lemma invalid_parameter_combination_witness :
  submit_sm_long "abc123" "dest_addr" Samples.long_text
                 (Samples.send Samples.elephant) (Samples.connected 0)
    = (inl (EsmeProtocolError ShortMessageNotAllowed), Samples.connected 0) /\
  submit_csm_udh "abc123" "dest_addr"
                 (<["esm_class" := VInt 0]> (Samples.send Samples.long_text))
                 (Samples.connected 0)
    = (inl (EsmeProtocolError EsmClassNotAllowed), Samples.connected 0).
Proof.
  split.
  - apply (proj1 (invalid_parameter_combination (Samples.connected 0)
                    "abc123" "dest_addr" Samples.long_text
                    (Samples.send Samples.elephant))).
    vm_compute. eauto.
  - apply (proj2 (invalid_parameter_combination (Samples.connected 0)
                    "abc123" "dest_addr" []
                    (<["esm_class" := VInt 0]>
                       (Samples.send Samples.long_text)))).
    vm_compute. eauto.
Defined.

(** ** The payload path *)

Section Payload.

Implicit Types (long_message : bytes).

Lemma hexlify_cons (c : byte) long_message :
  hexlify (c :: long_message) =
    hex_digit (ord c / 16) :: hex_digit (ord c mod 16) :: hexlify long_message.
Proof. reflexivity. Qed.

Lemma hexlify_length long_message :
  length (hexlify long_message) = (2 * length long_message)%nat.
Proof.
  induction long_message as [|c rest IH]; [done |].
  rewrite hexlify_cons. cbn [length]. rewrite IH. lia.
Qed.

(** Byte [i] of the message is written as the digits [2i] and [2i + 1]. *)
Lemma hexlify_lookup long_message (i : nat) (c : byte) :
  long_message !! i = Some c ->
  hexlify long_message !! (2 * i)%nat = Some (hex_digit (ord c / 16)) /\
  hexlify long_message !! (2 * i + 1)%nat = Some (hex_digit (ord c mod 16)).
Proof.
  revert i. induction long_message as [|c' rest IH]; intros i Hi; [done |].
  rewrite hexlify_cons. destruct i as [|i].
  - cbn in Hi. by simplify_eq.
  - replace (2 * S i)%nat with (S (S (2 * i))) by lia.
    replace (S (S (2 * i)) + 1)%nat with (S (S (2 * i + 1))) by lia.
    cbn [lookup list_lookup]. by apply IH.
Qed.

(** The two digits of a byte read back as that byte. *)
Lemma unhexlify_byte (c : byte) (digits : bytes) :
  unhexlify (hex_digit (ord c / 16) :: hex_digit (ord c mod 16) :: digits) =
    match unhexlify digits with
    | Some decoded => Some (c :: decoded)
    | None => None
    end.
Proof.
  cbn [unhexlify].
  assert (hex_value (hex_digit (ord c / 16)) = Some (ord c / 16) /\
          hex_value (hex_digit (ord c mod 16)) = Some (ord c mod 16) /\
          chr (16 * (ord c / 16) + ord c mod 16) = Some c) as (-> & -> & ->).
  { destruct c; vm_compute; done. }
  reflexivity.
Qed.

Lemma unhexlify_hexlify long_message :
  unhexlify (hexlify long_message) = Some long_message.
Proof.
  induction long_message as [|c rest IH]; [done |].
  by rewrite hexlify_cons, unhexlify_byte, IH.
Qed.

End Payload.


(** ** Steps of a run *)

Section Steps.

Context {A B : Type}.

Lemma bind_lift_ok (a : A) (k : A -> M B) (self : SmppService) :
  bind (lift (inr a)) k self = k a self.
Proof. reflexivity. Qed.

Lemma bind_lift_raise (e : exception) (k : A -> M B) (self : SmppService) :
  bind (lift (inl e)) k self = (inl e, self).
Proof. reflexivity. Qed.

Lemma bind_run (m : M A) (k : A -> M B) (self self' : SmppService) (a : A) :
  m self = (inr a, self') -> bind m k self = k a self'.
Proof. unfold bind. by intros ->. Qed.

Lemma bind_raised (m : M A) (k : A -> M B) (self self' : SmppService)
    (e : exception) :
  m self = (inl e, self') -> bind m k self = (inl e, self').
Proof. unfold bind. by intros ->. Qed.

End Steps.

Lemma submit_sm_connected (self : SmppService) (protocol : EsmeProtocol)
    (vumi_message_id destination_addr : string) (kw : kwargs) :
  _protocol self = Some protocol ->
  kw !! "protocol" = None ->
  submit_sm vumi_message_id destination_addr kw self
    = (inr [next_sequence_number protocol],
       after_submissions self protocol 1
         [ProtocolSubmitSm vumi_message_id destination_addr kw]).
Proof.
  intros Hprotocol Hfree. unfold submit_sm, bind, get_protocol.
  rewrite Hprotocol.
  by rewrite bool_decide_eq_false_2 by (rewrite Hfree; by intros [? ?]).
Qed.

(** With a session, a keyword [protocol] stops the call before the session
    is used. *)
Lemma submit_sm_protocol_keyword (self : SmppService)
    (vumi_message_id destination_addr : string) (kw : kwargs) :
  is_Some (_protocol self) ->
  is_Some (kw !! "protocol") ->
  submit_sm vumi_message_id destination_addr kw self = (inl TypeError, self).
Proof.
  intros [protocol Hprotocol] Hgiven. unfold submit_sm, bind, get_protocol.
  rewrite Hprotocol. by rewrite bool_decide_eq_true_2.
Qed.

Lemma submit_sm_disconnected (self : SmppService)
    (vumi_message_id destination_addr : string) (kw : kwargs) :
  _protocol self = None ->
  submit_sm vumi_message_id destination_addr kw self = (inl NotConnected, self).
Proof.
  intros Hprotocol. unfold submit_sm, bind, get_protocol.
  by rewrite Hprotocol.
Qed.

(** One keyword next to [**pdu_params] that does not hold it. *)
Lemma keywords_one (key : string) (v : value) (pdu_params : kwargs) :
  pdu_params !! key = None ->
  keywords [(key, v)] pdu_params = inr (<[key := v]> pdu_params).
Proof.
  intros Hfree. unfold keywords. cbn [forallb fst snd foldr].
  by rewrite bool_decide_eq_true_2.
Qed.

Lemma keywords_two (key1 key2 : string) (v1 v2 : value) (pdu_params : kwargs) :
  pdu_params !! key1 = None -> pdu_params !! key2 = None ->
  keywords [(key1, v1); (key2, v2)] pdu_params
    = inr (<[key1 := v1]> (<[key2 := v2]> pdu_params)).
Proof.
  intros Hfree1 Hfree2. unfold keywords. cbn [forallb fst snd foldr].
  by rewrite !bool_decide_eq_true_2.
Qed.

Lemma after_submissions_more (self : SmppService) (protocol : EsmeProtocol)
    (count : nat) (made : list call) (c : call) :
  after_submissions
    (after_submissions self protocol 1 [c])
    {| next_sequence_number := next_sequence_number protocol + 1 |}
    count made
  = after_submissions self protocol (S count) (c :: made).
Proof.
  unfold after_submissions. cbn. f_equal.
  - do 2 f_equal. lia.
  - by rewrite <- app_assoc.
Qed.

(** ** The one submission of the payload path *)

Section PayloadRun.

Variables (self : SmppService) (vumi_message_id destination_addr : string).
Variables (long_message : bytes) (pdu_params : kwargs).

Hypothesis no_short_message : pdu_params !! "short_message" = None.

(** An [optional_parameters] that is not a dict has no [copy]. *)
Lemma submit_sm_long_not_dict :
  (forall d, default (VDict ∅) (pdu_params !! "optional_parameters")
               <> VDict d) ->
  submit_sm_long vumi_message_id destination_addr long_message pdu_params self
  = (inl AttributeError, self).
Proof.
  intros Hother. unfold submit_sm_long.
  rewrite bool_decide_eq_false_2
    by (rewrite no_short_message; by intros [? ?]).
  unfold pop_optional_parameters.
  destruct (default (VDict ∅) (pdu_params !! "optional_parameters"))
    as [n|s|d]; [done | done | by destruct (Hother d)].
Qed.

(** [sm_length] given by the caller meets the [sm_length=0] of the call. *)
Lemma submit_sm_long_duplicate (optional_parameters : gmap string scalar) :
  default (VDict ∅) (pdu_params !! "optional_parameters")
    = VDict optional_parameters ->
  is_Some (pdu_params !! "sm_length") ->
  submit_sm_long vumi_message_id destination_addr long_message pdu_params self
  = (inl TypeError, self).
Proof.
  intros Hoptional [given Hgiven]. unfold submit_sm_long.
  rewrite bool_decide_eq_false_2
    by (rewrite no_short_message; by intros [? ?]).
  unfold pop_optional_parameters. rewrite Hoptional, bind_lift_ok.
  unfold keywords. cbn [forallb fst snd].
  rewrite !lookup_delete_ne by done. rewrite no_short_message, Hgiven.
  rewrite bool_decide_eq_true_2 by done.
  by rewrite (bool_decide_eq_false_2 (Some given = None)).
Qed.

(** Otherwise the path is one call of [submit_sm]. *)
Lemma submit_sm_long_run (optional_parameters : gmap string scalar) :
  default (VDict ∅) (pdu_params !! "optional_parameters")
    = VDict optional_parameters ->
  pdu_params !! "sm_length" = None ->
  submit_sm_long vumi_message_id destination_addr long_message pdu_params self
  = submit_sm vumi_message_id destination_addr
              (payload_kw pdu_params optional_parameters long_message) self.
Proof.
  intros Hoptional Hlength. unfold submit_sm_long.
  rewrite bool_decide_eq_false_2
    by (rewrite no_short_message; by intros [? ?]).
  unfold pop_optional_parameters. rewrite Hoptional, bind_lift_ok.
  unfold keywords. cbn [forallb fst snd].
  rewrite !lookup_delete_ne by done.
  rewrite no_short_message, Hlength, lookup_delete_eq.
  rewrite !bool_decide_eq_true_2 by done. cbn [andb foldr fst snd].
  by rewrite bind_lift_ok.
Qed.

Lemma payload_kw_protocol (optional_parameters : gmap string scalar) :
  payload_kw pdu_params optional_parameters long_message !! "protocol"
  = pdu_params !! "protocol".
Proof.
  unfold payload_kw. by rewrite !lookup_insert_ne, lookup_delete_ne by done.
Qed.

(** The ways a call without [short_message] can go. *)
Lemma submit_sm_long_cases :
  let run := submit_sm_long vumi_message_id destination_addr long_message
                            pdu_params self in
  (run = (inl AttributeError, self) /\
   forall d, default (VDict ∅) (pdu_params !! "optional_parameters")
               <> VDict d) \/
  (run = (inl TypeError, self) /\
   (is_Some (pdu_params !! "sm_length") \/
    is_Some (pdu_params !! "protocol"))) \/
  (run = (inl NotConnected, self) /\ _protocol self = None) \/
  (exists protocol optional_parameters,
     _protocol self = Some protocol /\
     default (VDict ∅) (pdu_params !! "optional_parameters")
       = VDict optional_parameters /\
     pdu_params !! "sm_length" = None /\
     pdu_params !! "protocol" = None /\
     run = (inr [next_sequence_number protocol],
            after_submissions self protocol 1
              [ProtocolSubmitSm vumi_message_id destination_addr
                 (payload_kw pdu_params optional_parameters long_message)])).
Proof.
  cbn zeta.
  destruct (default (VDict ∅) (pdu_params !! "optional_parameters"))
    as [n|s|d] eqn:Hoptional.
  - left. split; [| done]. apply submit_sm_long_not_dict.
    intros d. by rewrite Hoptional.
  - left. split; [| done]. apply submit_sm_long_not_dict.
    intros d. by rewrite Hoptional.
  - right. destruct (pdu_params !! "sm_length") as [given|] eqn:Hlength.
    { left. split; [| left; by eexists].
      apply (submit_sm_long_duplicate d Hoptional). rewrite Hlength.
      by eexists. }
    rewrite (submit_sm_long_run d Hoptional Hlength).
    destruct (_protocol self) as [protocol|] eqn:Hprotocol.
    + destruct (pdu_params !! "protocol") as [given|] eqn:Hkeyword.
      * left. split; [| right; by eexists].
        apply submit_sm_protocol_keyword; [by rewrite Hprotocol |].
        rewrite payload_kw_protocol, Hkeyword. by eexists.
      * right. right. exists protocol, d. repeat split.
        apply submit_sm_connected; [done |].
        by rewrite payload_kw_protocol.
    + right. left. split; [| done]. by apply submit_sm_disconnected.
Qed.

End PayloadRun.

(** The parameters of the one submission: the short message is empty,
    [sm_length] is zero, the optional parameters are the caller's with
    [message_payload] written over them, every other parameter is the
    caller's. *)
Lemma payload_kw_lookup (pdu_params : kwargs)
    (optional_parameters : gmap string scalar) (long_message : bytes) :
  let kw := payload_kw pdu_params optional_parameters long_message in
  let sent := <["message_payload" := SStr (hexlify long_message)]>
                optional_parameters in
  kw !! "short_message" = Some (VStr []) /\
  kw !! "sm_length" = Some (VInt 0) /\
  kw !! "optional_parameters" = Some (VDict sent) /\
  (forall key : string,
      key <> "short_message"%string -> key <> "sm_length"%string ->
      key <> "optional_parameters"%string ->
      kw !! key = pdu_params !! key) /\
  sent !! "message_payload" = Some (SStr (hexlify long_message)) /\
  (forall key : string,
      key <> "message_payload"%string ->
      sent !! key = optional_parameters !! key).
Proof.
  unfold payload_kw. cbn zeta.
  split; [by rewrite lookup_insert_eq |].
  split; [by rewrite lookup_insert_ne, lookup_insert_eq by done |].
  split; [by rewrite !lookup_insert_ne, lookup_insert_eq by done |].
  split.
  { intros key H1 H2 H3.
    by rewrite !lookup_insert_ne, lookup_delete_ne by done. }
  split; [by rewrite lookup_insert_eq |].
  intros key Hkey. by rewrite lookup_insert_ne by done.
Qed.

(** C9: of the calls of [submit_sm_long] without [short_message], the path
    accepts those made while a session exists, without a second
    [sm_length], without a keyword [protocol] (which would give the
    parameter [protocol] of [submit_sm] a second value), and with
    [optional_parameters], if given, a dict.  Every
    accepted call submits exactly one PDU: its short message is empty, its
    [sm_length] is zero, and its optional parameters are the caller's with
    [message_payload] set to the hex encoding of the whole body, two digits
    per byte, in order.  All other parameters of the caller are passed
    on. *)
Theorem submit_sm_long_payload (self : SmppService)
    (vumi_message_id destination_addr : string) (long_message : bytes)
    (pdu_params : kwargs) :
  pdu_params !! "short_message" = None ->
  let run := submit_sm_long vumi_message_id destination_addr long_message
                            pdu_params self in
  ((exists sequence_numbers self', run = (inr sequence_numbers, self')) <->
   (is_Some (_protocol self) /\
    pdu_params !! "sm_length" = None /\
    pdu_params !! "protocol" = None /\
    exists d, default (VDict ∅) (pdu_params !! "optional_parameters")
                = VDict d)) /\
  (forall sequence_numbers self',
     run = (inr sequence_numbers, self') ->
     exists protocol optional_parameters kw payload sent,
       _protocol self = Some protocol /\
       default (VDict ∅) (pdu_params !! "optional_parameters")
         = VDict optional_parameters /\
       sequence_numbers = [next_sequence_number protocol] /\
       self' = {| _protocol := Some {| next_sequence_number :=
                                         next_sequence_number protocol + 1 |};
                  sequence_generator := sequence_generator self;
                  message_stash := message_stash self;
                  calls := calls self
                             ++ [ProtocolSubmitSm vumi_message_id
                                                  destination_addr kw] |} /\
       kw !! "short_message" = Some (VStr []) /\
       kw !! "sm_length" = Some (VInt 0) /\
       kw !! "optional_parameters" = Some (VDict sent) /\
       (forall key : string,
           key <> "short_message"%string -> key <> "sm_length"%string ->
           key <> "optional_parameters"%string ->
           kw !! key = pdu_params !! key) /\
       sent !! "message_payload" = Some (SStr payload) /\
       (forall key : string,
           key <> "message_payload"%string ->
           sent !! key = optional_parameters !! key) /\
       length payload = (2 * length long_message)%nat /\
       (forall (i : nat) (c : byte), long_message !! i = Some c ->
           payload !! (2 * i)%nat = Some (hex_digit (ord c / 16)) /\
           payload !! (2 * i + 1)%nat = Some (hex_digit (ord c mod 16))) /\
       unhexlify payload = Some long_message).
Proof.
  intros Hshort run.
  pose proof (submit_sm_long_cases self vumi_message_id destination_addr
                long_message pdu_params Hshort) as Hcases.
  cbn zeta in Hcases. fold run in Hcases. split; [split |].
  - intros (sequence_numbers & self' & Hrun).
    destruct Hcases as [[Hraise _] | [[Hraise _] | [[Hraise _] | Hok]]];
      try (rewrite Hraise in Hrun; discriminate Hrun).
    destruct Hok
      as (protocol & d & Hprotocol & Hoptional & Hlength & Hkeyword & _).
    split; [by eexists | split; [done | split; [done | by eexists]]].
  - intros ([protocol Hprotocol] & Hlength & Hkeyword & d & Hoptional).
    destruct Hcases as [[_ Hno] | [[_ Hno] | [[_ Hno] | Hok]]].
    + by destruct (Hno d).
    + rewrite Hlength, Hkeyword in Hno. by destruct Hno as [[? ?] | [? ?]].
    + congruence.
    + destruct Hok as (? & ? & _ & _ & _ & _ & Hrun). eauto.
  - intros sequence_numbers self' Hrun.
    destruct Hcases as [[Hraise _] | [[Hraise _] | [[Hraise _] | Hok]]];
      try (rewrite Hraise in Hrun; discriminate Hrun).
    destruct Hok
      as (protocol & d & Hprotocol & Hoptional & Hlength & Hkeyword & Hok).
    rewrite Hok in Hrun. injection Hrun as <- <-.
    destruct (payload_kw_lookup pdu_params d long_message)
      as (H1 & H2 & H3 & H4 & H5 & H6).
    exists protocol, d, (payload_kw pdu_params d long_message),
      (hexlify long_message),
      (<["message_payload" := SStr (hexlify long_message)]> d).
    split; [done |]. split; [done |]. split; [done |].
    split; [reflexivity |].
    split; [done |]. split; [done |]. split; [done |]. split; [done |].
    split; [done |]. split; [done |].
    split; [apply hexlify_length |].
    split; [apply hexlify_lookup | apply unhexlify_hexlify].
Qed.

Lemma submit_sm_long_payload_witness :
  exists kw payload,
    calls (submit_sm_long "abc123" "dest_addr" Samples.elephant ∅
                          (Samples.connected 0)).2
      = [ProtocolSubmitSm "abc123" "dest_addr" kw] /\
    kw !! "short_message" = Some (VStr []) /\
    kw !! "sm_length" = Some (VInt 0) /\
    unhexlify payload = Some Samples.elephant.
Proof.
  destruct (submit_sm_long "abc123" "dest_addr" Samples.elephant ∅
                           (Samples.connected 0))
    as [[raised|sequence_numbers] self'] eqn:Hrun;
    [vm_compute in Hrun; discriminate Hrun |].
  destruct (proj2 (submit_sm_long_payload (Samples.connected 0)
                     "abc123" "dest_addr" Samples.elephant ∅
                     (lookup_empty _))
              sequence_numbers self' Hrun)
    as (protocol & d & kw & payload & sent
        & _ & _ & _ & -> & Hshort & Hlength & _ & _ & _ & _ & _ & _ & Hback).
  exists kw, payload. by repeat split.
Defined.

(** ** The segments of the SAR path *)

Section SarSegments.

Variables (vumi_message_id destination_addr : string).
Variables (ref_num : Z) (total : nat) (pdu_params : kwargs).

Hypothesis short_message_popped : pdu_params !! "short_message" = None.
Hypothesis optional_parameters_popped :
  pdu_params !! "optional_parameters" = None.

(** The three SAR keys are written over whatever an earlier round left. *)
Lemma sar_optional_again (i j : nat) (d : gmap string scalar) :
  sar_optional ref_num total i (sar_optional ref_num total j d)
  = sar_optional ref_num total i d.
Proof.
  unfold sar_optional. apply map_eq. intros key.
  rewrite !lookup_insert. repeat case_decide; congruence.
Qed.

Lemma sar_segments_cons (i : nat) (msg : bytes) (rest : list bytes)
    (optional_parameters : gmap string scalar) (sequence_numbers : list Z) :
  sar_segments vumi_message_id destination_addr ref_num total i (msg :: rest)
               pdu_params optional_parameters sequence_numbers
  = (kw <~ lift (keywords
                   [("short_message", VStr msg);
                    ("optional_parameters",
                     VDict (sar_optional ref_num total i optional_parameters))]
                   pdu_params) ;;
     sequence_number <~ submit_sm vumi_message_id destination_addr kw ;;
     sar_segments vumi_message_id destination_addr ref_num total (S i) rest
                  pdu_params
                  (sar_optional ref_num total i optional_parameters)
                  (sequence_numbers ++ sequence_number)).
Proof. reflexivity. Qed.

(** With a session and no keyword [protocol], every chunk is submitted, in
    order. *)
Lemma sar_segments_connected (split_msg : list bytes) :
  forall (i : nat) (self : SmppService) (protocol : EsmeProtocol)
         (optional_parameters : gmap string scalar)
         (sequence_numbers : list Z),
    pdu_params !! "protocol" = None ->
    _protocol self = Some protocol ->
    sar_segments vumi_message_id destination_addr ref_num total i split_msg
                 pdu_params optional_parameters sequence_numbers self
    = (inr (sequence_numbers
              ++ assigned (next_sequence_number protocol) (length split_msg)),
       after_submissions self protocol (length split_msg)
         (imap (fun j msg =>
                  ProtocolSubmitSm vumi_message_id destination_addr
                    (sar_kw ref_num total pdu_params optional_parameters
                            (i + j) msg))
               split_msg)).
Proof.
  induction split_msg as [|msg rest IH];
    intros i self protocol optional_parameters sequence_numbers
           Hfree Hprotocol.
  - destruct self as [session generator stash made]. cbn in Hprotocol. subst.
    destruct protocol as [next]. unfold after_submissions. cbn.
    by rewrite !app_nil_r, Z.add_0_r.
  - rewrite sar_segments_cons, keywords_two, bind_lift_ok by done.
    erewrite bind_run;
      [| apply (submit_sm_connected self protocol); [exact Hprotocol |];
         by rewrite !lookup_insert_ne by done].
    rewrite (IH (S i) _ {| next_sequence_number :=
                             next_sequence_number protocol + 1 |})
      by (done || reflexivity).
    rewrite after_submissions_more, <- app_assoc, imap_cons.
    cbn [assigned length app]. unfold sar_kw at 3.
    rewrite Nat.add_0_r. do 3 f_equal.
    apply imap_ext. intros j chunk _. cbn. unfold sar_kw.
    rewrite sar_optional_again. do 5 f_equal. lia.
Qed.

(** Without a session, the first round raises and nothing is recorded. *)
Lemma sar_segments_disconnected (i : nat) (msg : bytes) (rest : list bytes)
    (self : SmppService) (optional_parameters : gmap string scalar)
    (sequence_numbers : list Z) :
  _protocol self = None ->
  sar_segments vumi_message_id destination_addr ref_num total i (msg :: rest)
               pdu_params optional_parameters sequence_numbers self
  = (inl NotConnected, self).
Proof.
  intros Hprotocol.
  rewrite sar_segments_cons, keywords_two, bind_lift_ok by done.
  apply bind_raised. by apply submit_sm_disconnected.
Qed.

(** With a session and a keyword [protocol], the first round raises and
    nothing is recorded. *)
Lemma sar_segments_protocol_keyword (i : nat) (msg : bytes)
    (rest : list bytes) (self : SmppService)
    (optional_parameters : gmap string scalar) (sequence_numbers : list Z) :
  is_Some (_protocol self) ->
  is_Some (pdu_params !! "protocol") ->
  sar_segments vumi_message_id destination_addr ref_num total i (msg :: rest)
               pdu_params optional_parameters sequence_numbers self
  = (inl TypeError, self).
Proof.
  intros Hprotocol Hgiven.
  rewrite sar_segments_cons, keywords_two, bind_lift_ok by done.
  apply bind_raised. apply submit_sm_protocol_keyword; [done |].
  by rewrite !lookup_insert_ne by done.
Qed.

End SarSegments.

(** ** The segments of the UDH path *)

Section UdhSegments.

Variables (vumi_message_id destination_addr : string).
Variables (ref_num : Z) (total : nat).

Lemma chr_or_raise_byte (n : Z) :
  0 ≤ n < 256 -> chr_or_raise n = inr (byte_of n).
Proof.
  intros Hn. unfold chr_or_raise, byte_of, chr.
  rewrite decide_True by lia.
  destruct (Byte.of_N (Z.to_N n)) as [ch|] eqn:Hch; [done |].
  apply Byte.of_N_None_iff in Hch. lia.
Qed.

Lemma chr_or_raise_large (n : Z) :
  256 ≤ n -> chr_or_raise n = inl ValueError.
Proof.
  intros Hn. unfold chr_or_raise, chr.
  rewrite decide_True by lia.
  assert (Byte.of_N (Z.to_N n) = None) as ->; [| done].
  apply Byte.of_N_None_iff. lia.
Qed.

Lemma ord_byte_of (n : Z) : 0 ≤ n < 256 -> ord (byte_of n) = n.
Proof.
  intros Hn. unfold ord, byte_of, chr.
  rewrite decide_True by lia.
  destruct (Byte.of_N (Z.to_N n)) as [ch|] eqn:Hch.
  - apply Byte.to_of_N in Hch. cbn. lia.
  - apply Byte.of_N_None_iff in Hch. lia.
Qed.

Lemma udh_segments_cons (i : nat) (msg : bytes) (rest : list bytes)
    (pdu_params : kwargs) (sequence_numbers : list Z) :
  udh_segments vumi_message_id destination_addr ref_num total i (msg :: rest)
               pdu_params sequence_numbers
  = (reference <~ lift (chr_or_raise (ref_num mod 0xFF)) ;;
     parts <~ lift (chr_or_raise (Z.of_nat total)) ;;
     index <~ lift (chr_or_raise (Z.of_nat i + 1)) ;;
     kw <~ lift (keywords
                   [("short_message",
                     VStr ([x05; x00; x03; reference; parts; index] ++ msg))]
                   (<["esm_class" := VInt 0x40]> pdu_params)) ;;
     sequence_number <~ submit_sm vumi_message_id destination_addr kw ;;
     udh_segments vumi_message_id destination_addr ref_num total (S i) rest
                  (<["esm_class" := VInt 0x40]> pdu_params)
                  (sequence_numbers ++ sequence_number)).
Proof. reflexivity. Qed.

Lemma reference_byte_range : 0 ≤ ref_num mod 0xFF < 256.
Proof. pose proof (Z.mod_pos_bound ref_num 0xFF). lia. Qed.

(** The start of a round whose three numbers fit in a byte. *)
Lemma udh_round (i : nat) (msg : bytes) (rest : list bytes)
    (pdu_params : kwargs) (sequence_numbers : list Z) (self : SmppService) :
  (total <= 255)%nat -> (i < 255)%nat ->
  pdu_params !! "short_message" = None ->
  udh_segments vumi_message_id destination_addr ref_num total i (msg :: rest)
               pdu_params sequence_numbers self
  = (sequence_number <~ submit_sm vumi_message_id destination_addr
                                  (udh_kw ref_num total pdu_params i msg) ;;
     udh_segments vumi_message_id destination_addr ref_num total (S i) rest
                  (<["esm_class" := VInt 0x40]> pdu_params)
                  (sequence_numbers ++ sequence_number)) self.
Proof.
  intros Htotal Hi Hpopped. rewrite udh_segments_cons.
  rewrite (chr_or_raise_byte _ reference_byte_range), bind_lift_ok.
  rewrite chr_or_raise_byte, bind_lift_ok by lia.
  rewrite chr_or_raise_byte, bind_lift_ok by lia.
  rewrite keywords_one, bind_lift_ok by (by rewrite lookup_insert_ne).
  reflexivity.
Qed.

(** With a session, no keyword [protocol] and at most 255 chunks, every
    chunk is submitted, in order. *)
Lemma udh_segments_connected (split_msg : list bytes) :
  forall (i : nat) (self : SmppService) (protocol : EsmeProtocol)
         (pdu_params : kwargs) (sequence_numbers : list Z),
    (total <= 255)%nat -> (i + length split_msg <= total)%nat ->
    pdu_params !! "short_message" = None ->
    pdu_params !! "protocol" = None ->
    _protocol self = Some protocol ->
    udh_segments vumi_message_id destination_addr ref_num total i split_msg
                 pdu_params sequence_numbers self
    = (inr (sequence_numbers
              ++ assigned (next_sequence_number protocol) (length split_msg)),
       after_submissions self protocol (length split_msg)
         (imap (fun j msg =>
                  ProtocolSubmitSm vumi_message_id destination_addr
                    (udh_kw ref_num total pdu_params (i + j) msg))
               split_msg)).
Proof.
  induction split_msg as [|msg rest IH];
    intros i self protocol pdu_params sequence_numbers
           Htotal Hi Hpopped Hfree Hprotocol.
  - destruct self as [session generator stash made]. cbn in Hprotocol. subst.
    destruct protocol as [next]. unfold after_submissions. cbn.
    by rewrite !app_nil_r, Z.add_0_r.
  - cbn [length] in Hi. rewrite udh_round by (done || lia).
    erewrite bind_run;
      [| apply (submit_sm_connected self protocol); [exact Hprotocol |];
         unfold udh_kw; by rewrite !lookup_insert_ne by done].
    rewrite (IH (S i) _ {| next_sequence_number :=
                             next_sequence_number protocol + 1 |})
      by (done || lia || by rewrite lookup_insert_ne).
    rewrite after_submissions_more, <- app_assoc, imap_cons.
    cbn [assigned length app]. rewrite Nat.add_0_r. do 3 f_equal.
    apply imap_ext. intros j chunk _. cbn. unfold udh_kw.
    rewrite insert_insert_eq. do 5 f_equal. lia.
Qed.

(** Without a session, the first round raises and nothing is recorded. *)
Lemma udh_segments_disconnected (i : nat) (msg : bytes) (rest : list bytes)
    (self : SmppService) (pdu_params : kwargs) (sequence_numbers : list Z) :
  (total <= 255)%nat -> (i < 255)%nat ->
  pdu_params !! "short_message" = None ->
  _protocol self = None ->
  udh_segments vumi_message_id destination_addr ref_num total i (msg :: rest)
               pdu_params sequence_numbers self
  = (inl NotConnected, self).
Proof.
  intros Htotal Hi Hpopped Hprotocol. rewrite udh_round by done.
  apply bind_raised. by apply submit_sm_disconnected.
Qed.

(** With a session and a keyword [protocol], the first round raises and
    nothing is recorded. *)
Lemma udh_segments_protocol_keyword (i : nat) (msg : bytes)
    (rest : list bytes) (self : SmppService) (pdu_params : kwargs)
    (sequence_numbers : list Z) :
  (total <= 255)%nat -> (i < 255)%nat ->
  pdu_params !! "short_message" = None ->
  is_Some (_protocol self) ->
  is_Some (pdu_params !! "protocol") ->
  udh_segments vumi_message_id destination_addr ref_num total i (msg :: rest)
               pdu_params sequence_numbers self
  = (inl TypeError, self).
Proof.
  intros Htotal Hi Hpopped Hprotocol Hgiven. rewrite udh_round by done.
  apply bind_raised. apply submit_sm_protocol_keyword; [done |].
  unfold udh_kw. by rewrite !lookup_insert_ne by done.
Qed.

(** More than 255 chunks: [chr(len(split_msg))] raises in the first round,
    before anything is submitted. *)
Lemma udh_segments_too_many (i : nat) (msg : bytes) (rest : list bytes)
    (self : SmppService) (pdu_params : kwargs) (sequence_numbers : list Z) :
  (255 < total)%nat ->
  udh_segments vumi_message_id destination_addr ref_num total i (msg :: rest)
               pdu_params sequence_numbers self
  = (inl ValueError, self).
Proof.
  intros Htotal. rewrite udh_segments_cons.
  rewrite (chr_or_raise_byte _ reference_byte_range), bind_lift_ok.
  by rewrite chr_or_raise_large by lia.
Qed.

End UdhSegments.

(** ** The two multipart paths, step by step *)

(** Drawing the reference number and writing the stash entry. *)
Lemma draw_and_stash {A} (vumi_message_id : string) (parts : nat)
    (k : Z -> M A) (self : SmppService) :
  (ref_num <~ sequence_next ;;
   recorded <~ init_multipart_info vumi_message_id parts ;;
   k ref_num) self
  = k (sequence_generator self) (after_stash self vumi_message_id parts).
Proof.
  unfold bind, sequence_next, init_multipart_info, after_stash. cbn.
  by rewrite <- app_assoc.
Qed.

Section Multipart.

Variables (vumi_message_id destination_addr : string).
Variables (pdu_params : kwargs) (message : bytes).

Hypothesis short_message_given :
  pdu_params !! "short_message" = Some (VStr message).

Lemma split_single :
  length (csm_split_message message) = 1%nat ->
  csm_split_message message = [message].
Proof.
  unfold csm_split_message.
  destruct (_fits_in_one_message message) eqn:Hfit; [done |].
  intros Hone. pose proof (split_loop_many message Hfit). lia.
Qed.

(** One chunk: the path is [submit_sm] with the parameters as given. *)
Lemma submit_csm_sar_single (self : SmppService) :
  length (csm_split_message message) = 1%nat ->
  submit_csm_sar vumi_message_id destination_addr pdu_params self
  = submit_sm vumi_message_id destination_addr
              (<["short_message" := VStr message]>
                 (delete "short_message" pdu_params)) self.
Proof.
  intros Hone%split_single. unfold submit_csm_sar, pop.
  rewrite short_message_given, bind_lift_ok. cbn [as_str].
  rewrite bind_lift_ok, Hone.
  by rewrite keywords_one, bind_lift_ok by apply lookup_delete_eq.
Qed.

Lemma submit_csm_udh_single (self : SmppService) :
  pdu_params !! "esm_class" = None ->
  length (csm_split_message message) = 1%nat ->
  submit_csm_udh vumi_message_id destination_addr pdu_params self
  = submit_sm vumi_message_id destination_addr
              (<["short_message" := VStr message]>
                 (delete "short_message" pdu_params)) self.
Proof.
  intros Hclass Hone%split_single. unfold submit_csm_udh, pop.
  rewrite bool_decide_eq_false_2 by (rewrite Hclass; by intros [? ?]).
  rewrite short_message_given, bind_lift_ok. cbn [as_str].
  rewrite bind_lift_ok, Hone.
  by rewrite keywords_one, bind_lift_ok by apply lookup_delete_eq.
Qed.

(** Several chunks: the reference number is drawn, the stash entry is
    written, and then the loop runs. *)
Lemma submit_csm_sar_many (self : SmppService)
    (optional_parameters : gmap string scalar) :
  (1 < length (csm_split_message message))%nat ->
  default (VDict ∅) (pdu_params !! "optional_parameters")
    = VDict optional_parameters ->
  submit_csm_sar vumi_message_id destination_addr pdu_params self
  = sar_segments vumi_message_id destination_addr (sequence_generator self)
                 (length (csm_split_message message)) 0
                 (csm_split_message message)
                 (delete "optional_parameters"
                         (delete "short_message" pdu_params))
                 optional_parameters []
                 (after_stash self vumi_message_id
                              (length (csm_split_message message))).
Proof.
  intros Hmany Hoptional. unfold submit_csm_sar, pop.
  rewrite short_message_given, bind_lift_ok. cbn [as_str].
  rewrite bind_lift_ok. cbn zeta.
  assert (pop_optional_parameters (delete "short_message" pdu_params)
          = inr (optional_parameters,
                 delete "optional_parameters"
                        (delete "short_message" pdu_params))) as Hpop.
  { unfold pop_optional_parameters.
    by rewrite lookup_delete_ne, Hoptional by done. }
  destruct (csm_split_message message) as [|first [|second more]];
    [cbn in Hmany; lia | cbn in Hmany; lia |].
  rewrite Hpop, bind_lift_ok. apply draw_and_stash.
Qed.

Lemma submit_csm_udh_many (self : SmppService) :
  pdu_params !! "esm_class" = None ->
  (1 < length (csm_split_message message))%nat ->
  submit_csm_udh vumi_message_id destination_addr pdu_params self
  = udh_segments vumi_message_id destination_addr (sequence_generator self)
                 (length (csm_split_message message)) 0
                 (csm_split_message message)
                 (delete "short_message" pdu_params) []
                 (after_stash self vumi_message_id
                              (length (csm_split_message message))).
Proof.
  intros Hclass Hmany. unfold submit_csm_udh, pop.
  rewrite bool_decide_eq_false_2 by (rewrite Hclass; by intros [? ?]).
  rewrite short_message_given, bind_lift_ok. cbn [as_str].
  rewrite bind_lift_ok. cbn zeta.
  destruct (csm_split_message message) as [|first [|second more]];
    [cbn in Hmany; lia | cbn in Hmany; lia |].
  apply draw_and_stash.
Qed.

End Multipart.

(** Whatever the state of the session, the loops only add to the record of
    calls and leave the stash alone. *)
Lemma sar_segments_made (vumi_message_id destination_addr : string)
    (ref_num : Z) (total i : nat) (split_msg : list bytes)
    (pdu_params : kwargs) (optional_parameters : gmap string scalar)
    (sequence_numbers : list Z) (self : SmppService) :
  pdu_params !! "short_message" = None ->
  pdu_params !! "optional_parameters" = None ->
  exists made,
    calls (sar_segments vumi_message_id destination_addr ref_num total i
             split_msg pdu_params optional_parameters sequence_numbers self).2
      = calls self ++ made /\
    message_stash
      (sar_segments vumi_message_id destination_addr ref_num total i
         split_msg pdu_params optional_parameters sequence_numbers self).2
      = message_stash self.
Proof.
  intros Hshort Hoptional.
  destruct split_msg as [|msg rest].
  { exists []. cbn. by rewrite app_nil_r. }
  destruct (_protocol self) as [protocol|] eqn:Hprotocol.
  - destruct (pdu_params !! "protocol") as [given|] eqn:Hkeyword.
    + rewrite sar_segments_protocol_keyword
        by (done || by rewrite ?Hprotocol, ?Hkeyword).
      exists []. cbn. by rewrite app_nil_r.
    + rewrite (sar_segments_connected _ _ _ _ _ Hshort Hoptional _ _ _
                 protocol) by done.
      eexists. split; reflexivity.
  - rewrite sar_segments_disconnected by done.
    exists []. cbn. by rewrite app_nil_r.
Qed.

Lemma udh_segments_made (vumi_message_id destination_addr : string)
    (ref_num : Z) (total i : nat) (split_msg : list bytes)
    (pdu_params : kwargs) (sequence_numbers : list Z) (self : SmppService) :
  pdu_params !! "short_message" = None ->
  (i + length split_msg <= total)%nat ->
  exists made,
    calls (udh_segments vumi_message_id destination_addr ref_num total i
             split_msg pdu_params sequence_numbers self).2
      = calls self ++ made /\
    message_stash
      (udh_segments vumi_message_id destination_addr ref_num total i
         split_msg pdu_params sequence_numbers self).2
      = message_stash self.
Proof.
  intros Hshort Hi.
  destruct split_msg as [|msg rest].
  { exists []. cbn. by rewrite app_nil_r. }
  cbn [length] in Hi.
  destruct (decide (total <= 255)%nat) as [Hfew|Hmany].
  - destruct (_protocol self) as [protocol|] eqn:Hprotocol.
    + destruct (pdu_params !! "protocol") as [given|] eqn:Hkeyword.
      * rewrite udh_segments_protocol_keyword
          by (done || lia || by rewrite ?Hprotocol, ?Hkeyword).
        exists []. cbn. by rewrite app_nil_r.
      * rewrite (udh_segments_connected _ _ _ _ _ _ _ protocol)
          by (done || cbn [length]; lia).
        eexists. split; reflexivity.
    + rewrite udh_segments_disconnected by (done || lia).
      exists []. cbn. by rewrite app_nil_r.
  - rewrite udh_segments_too_many by lia.
    exists []. cbn. by rewrite app_nil_r.
Qed.

(** ** Order of the stash entry and the segments *)

(** C8: in both multipart paths, when the message splits into more than one
    chunk, the stash entry (message identifier, number of chunks) is written
    before any segment is submitted; when the message is a single chunk, the
    path is one call of [submit_sm] with the parameters as given: no stash
    entry is written, no reference number is drawn, and with a session the
    one sequence number of that submission is returned (unless a keyword
    [protocol] is among the parameters: the call of [submit_sm] then raises
    [TypeError] and the service is as it was). *)
Theorem stash_entry_before_segments (self : SmppService)
    (vumi_message_id destination_addr : string) (pdu_params : kwargs)
    (message : bytes) :
  pdu_params !! "short_message" = Some (VStr message) ->
  let parts := length (csm_split_message message) in
  ((1 < parts)%nat ->
     (forall optional_parameters : gmap string scalar,
        default (VDict ∅) (pdu_params !! "optional_parameters")
          = VDict optional_parameters ->
        exists made,
          calls (submit_csm_sar vumi_message_id destination_addr pdu_params
                                self).2 = calls self ++ made /\
          stash_recorded_first vumi_message_id parts made = true /\
          message_stash (submit_csm_sar vumi_message_id destination_addr
                                        pdu_params self).2
            !! vumi_message_id = Some parts) /\
     (pdu_params !! "esm_class" = None ->
        exists made,
          calls (submit_csm_udh vumi_message_id destination_addr pdu_params
                                self).2 = calls self ++ made /\
          stash_recorded_first vumi_message_id parts made = true /\
          message_stash (submit_csm_udh vumi_message_id destination_addr
                                        pdu_params self).2
            !! vumi_message_id = Some parts)) /\
  (parts = 1%nat ->
     submit_csm_sar vumi_message_id destination_addr pdu_params self
       = submit_sm vumi_message_id destination_addr pdu_params self /\
     (pdu_params !! "esm_class" = None ->
        submit_csm_udh vumi_message_id destination_addr pdu_params self
          = submit_sm vumi_message_id destination_addr pdu_params self) /\
     (forall protocol : EsmeProtocol, _protocol self = Some protocol ->
        pdu_params !! "protocol" = None ->
        submit_sm vumi_message_id destination_addr pdu_params self
          = (inr [next_sequence_number protocol],
             {| _protocol := Some {| next_sequence_number :=
                                       next_sequence_number protocol + 1 |};
                sequence_generator := sequence_generator self;
                message_stash := message_stash self;
                calls := calls self
                           ++ [ProtocolSubmitSm vumi_message_id
                                                destination_addr
                                                pdu_params] |})) /\
     (is_Some (_protocol self) -> is_Some (pdu_params !! "protocol") ->
        submit_sm vumi_message_id destination_addr pdu_params self
          = (inl TypeError, self)) /\
     (_protocol self = None ->
        submit_sm vumi_message_id destination_addr pdu_params self
          = (inl NotConnected, self))).
Proof.
  intros Hmessage parts. split.
  - intros Hmany.
    assert (forall made,
              stash_recorded_first vumi_message_id parts
                ([SequenceNext (sequence_generator self);
                  InitMultipartInfo vumi_message_id parts] ++ made) = true)
      as Hfirst.
    { intros made. cbn. by rewrite !bool_decide_eq_true_2. }
    split.
    + intros optional_parameters Hoptional.
      rewrite (submit_csm_sar_many _ _ _ _ Hmessage _ _ Hmany Hoptional).
      edestruct sar_segments_made as (made & -> & ->);
        [| | exists ([SequenceNext (sequence_generator self);
                      InitMultipartInfo vumi_message_id parts] ++ made)].
      * by rewrite lookup_delete_ne, lookup_delete_eq.
      * apply lookup_delete_eq.
      * cbn [after_stash calls message_stash].
        split; [by rewrite <- app_assoc |].
        split; [apply Hfirst | apply lookup_insert_eq].
    + intros Hclass.
      rewrite (submit_csm_udh_many _ _ _ _ Hmessage _ Hclass Hmany).
      edestruct udh_segments_made as (made & -> & ->);
        [| | exists ([SequenceNext (sequence_generator self);
                      InitMultipartInfo vumi_message_id parts] ++ made)].
      * apply lookup_delete_eq.
      * cbn. lia.
      * cbn [after_stash calls message_stash].
        split; [by rewrite <- app_assoc |].
        split; [apply Hfirst | apply lookup_insert_eq].
  - intros Hone.
    assert (<["short_message" := VStr message]>
              (delete "short_message" pdu_params) = pdu_params) as Hsame.
    { by rewrite insert_delete_eq, insert_id. }
    split; [| split; [intros Hclass | split; [| split]]].
    + by rewrite (submit_csm_sar_single _ _ _ _ Hmessage _ Hone), Hsame.
    + by rewrite (submit_csm_udh_single _ _ _ _ Hmessage _ Hclass Hone), Hsame.
    + intros protocol Hprotocol Hfree.
      by rewrite (submit_sm_connected _ protocol).
    + apply submit_sm_protocol_keyword.
    + apply submit_sm_disconnected.
Qed.

Lemma stash_entry_before_segments_witness :
  (exists made,
     calls (submit_csm_udh "abc123" "dest_addr"
              (Samples.send Samples.long_text) (Samples.connected 7)).2
       = made /\
     stash_recorded_first "abc123" 2 made = true) /\
  submit_csm_sar "abc123" "dest_addr" (Samples.send Samples.elephant)
                 (Samples.connected 7)
  = (inr [1],
     {| _protocol := Some {| next_sequence_number := 2 |};
        sequence_generator := 7;
        message_stash := ∅;
        calls := [ProtocolSubmitSm "abc123" "dest_addr"
                    (Samples.send Samples.elephant)] |}).
Proof.
  split.
  - pose proof (proj1 (stash_entry_before_segments (Samples.connected 7)
                         "abc123" "dest_addr" (Samples.send Samples.long_text)
                         Samples.long_text ltac:(reflexivity))
                  ltac:(vm_compute; lia)) as [_ Hudh].
    destruct (Hudh ltac:(reflexivity)) as (made & Hcalls & Hfirst & _).
    exists made. split; [exact Hcalls | exact Hfirst].
  - destruct (proj2 (stash_entry_before_segments (Samples.connected 7)
                       "abc123" "dest_addr" (Samples.send Samples.elephant)
                       Samples.elephant ltac:(reflexivity))
                ltac:(reflexivity)) as (Hsar & _ & Hsubmitted & _).
    rewrite Hsar.
    exact (Hsubmitted {| next_sequence_number := 1 |} ltac:(reflexivity)
                      ltac:(reflexivity)).
Defined.

(** ** Submitting without a session *)

(** C3, as the code has it: without a session every submission raises the
    "not connected" [EsmeProtocolError] and submits nothing.  [submit_sm],
    [submit_sm_long] and the multipart paths on a message of one chunk leave
    the service untouched.  On a message of several chunks the multipart
    paths raise at the first segment, when the reference number is already
    drawn and the stash entry written. *)
Theorem not_connected_submission (self : SmppService)
    (vumi_message_id destination_addr : string) (pdu_params : kwargs) :
  _protocol self = None ->
  submit_sm vumi_message_id destination_addr pdu_params self
    = (inl NotConnected, self) /\
  (forall (long_message : bytes) (optional_parameters : gmap string scalar),
     pdu_params !! "short_message" = None ->
     pdu_params !! "sm_length" = None ->
     default (VDict ∅) (pdu_params !! "optional_parameters")
       = VDict optional_parameters ->
     submit_sm_long vumi_message_id destination_addr long_message pdu_params
                    self = (inl NotConnected, self)) /\
  (forall message : bytes,
     pdu_params !! "short_message" = Some (VStr message) ->
     let parts := length (csm_split_message message) in
     (parts = 1%nat ->
        submit_csm_sar vumi_message_id destination_addr pdu_params self
          = (inl NotConnected, self) /\
        (pdu_params !! "esm_class" = None ->
           submit_csm_udh vumi_message_id destination_addr pdu_params self
             = (inl NotConnected, self))) /\
     ((1 < parts)%nat ->
        (forall optional_parameters : gmap string scalar,
           default (VDict ∅) (pdu_params !! "optional_parameters")
             = VDict optional_parameters ->
           submit_csm_sar vumi_message_id destination_addr pdu_params self
             = (inl NotConnected, after_stash self vumi_message_id parts)) /\
        (pdu_params !! "esm_class" = None -> (parts <= 255)%nat ->
           submit_csm_udh vumi_message_id destination_addr pdu_params self
             = (inl NotConnected, after_stash self vumi_message_id parts)))).
Proof.
  intros Hprotocol. split; [by apply submit_sm_disconnected |]. split.
  - intros long_message optional_parameters Hshort Hlength Hoptional.
    rewrite (submit_sm_long_run _ _ _ _ _ Hshort _ Hoptional Hlength).
    by apply submit_sm_disconnected.
  - intros message Hmessage parts. split.
    + intros Hone. split; [| intros Hclass].
      * rewrite (submit_csm_sar_single _ _ _ _ Hmessage _ Hone).
        by apply submit_sm_disconnected.
      * rewrite (submit_csm_udh_single _ _ _ _ Hmessage _ Hclass Hone).
        by apply submit_sm_disconnected.
    + intros Hmany. split.
      * intros optional_parameters Hoptional.
        rewrite (submit_csm_sar_many _ _ _ _ Hmessage _ _ Hmany Hoptional).
        fold parts. destruct (csm_split_message message) as [|msg rest];
          [cbn in Hmany; lia |].
        apply sar_segments_disconnected; [| apply lookup_delete_eq | done].
        by rewrite lookup_delete_ne, lookup_delete_eq.
      * intros Hclass Hfew.
        rewrite (submit_csm_udh_many _ _ _ _ Hmessage _ Hclass Hmany).
        fold parts. destruct (csm_split_message message) as [|msg rest];
          [cbn in Hmany; lia |].
        apply udh_segments_disconnected;
          [done | lia | apply lookup_delete_eq | done].
Qed.

Lemma not_connected_submission_witness :
  submit_sm "abc123" "dest_addr" (Samples.send Samples.elephant)
            (Samples.disconnected 7)
    = (inl NotConnected, Samples.disconnected 7) /\
  submit_csm_udh "abc123" "dest_addr" (Samples.send Samples.elephant)
                 (Samples.disconnected 7)
    = (inl NotConnected, Samples.disconnected 7).
Proof.
  destruct (not_connected_submission (Samples.disconnected 7)
              "abc123" "dest_addr" (Samples.send Samples.elephant)
              ltac:(reflexivity)) as (Hplain & _ & Hmultipart).
  split; [exact Hplain |].
  destruct (Hmultipart Samples.elephant ltac:(reflexivity)) as [Hsingle _].
  destruct (Hsingle ltac:(reflexivity)) as [_ Hudh].
  apply Hudh. reflexivity.
Defined.

(** C3 as stated fails on a message of two chunks sent through
    [submit_csm_sar] without a session: the call raises "not connected", but
    the sequence generator was called and the stash was written. *)
Lemma not_connected_multipart_counterexample :
  let run := submit_csm_sar "abc123" "dest_addr"
               (Samples.send Samples.long_text) (Samples.disconnected 7) in
  run.1 = inl NotConnected /\
  calls run.2 = [SequenceNext 7; InitMultipartInfo "abc123" 2] /\
  message_stash run.2 !! "abc123" = Some 2%nat /\
  message_stash (Samples.disconnected 7) !! "abc123" = None /\
  sequence_generator run.2 = 8 /\
  ~ (run = (inl NotConnected, Samples.disconnected 7)).
Proof.
  vm_compute. repeat split; discriminate.
Qed.

(** ** What the segments carry *)

Section Segments.

Variables (self : SmppService) (protocol : EsmeProtocol).
Variables (vumi_message_id destination_addr : string).
Variables (pdu_params : kwargs) (message : bytes).

Hypothesis connected : _protocol self = Some protocol.
Hypothesis short_message_given :
  pdu_params !! "short_message" = Some (VStr message).
Hypothesis several_chunks : (1 < length (csm_split_message message))%nat.
Hypothesis no_protocol_keyword : pdu_params !! "protocol" = None.

(** The whole run of [submit_csm_sar] on a message of several chunks: the
    draw, the stash entry, then one submission per chunk, in order. *)
Lemma submit_csm_sar_segments (optional_parameters : gmap string scalar) :
  default (VDict ∅) (pdu_params !! "optional_parameters")
    = VDict optional_parameters ->
  let parts := length (csm_split_message message) in
  submit_csm_sar vumi_message_id destination_addr pdu_params self
  = (inr (assigned (next_sequence_number protocol) parts),
     after_submissions (after_stash self vumi_message_id parts) protocol parts
       (imap (fun j msg =>
                ProtocolSubmitSm vumi_message_id destination_addr
                  (sar_kw (sequence_generator self) parts
                          (delete "optional_parameters"
                                  (delete "short_message" pdu_params))
                          optional_parameters j msg))
             (csm_split_message message))).
Proof.
  intros Hoptional parts.
  rewrite (submit_csm_sar_many _ _ _ _ short_message_given _ _
             several_chunks Hoptional).
  rewrite (sar_segments_connected _ _ _ _
             (delete "optional_parameters" (delete "short_message" pdu_params)))
    with (protocol := protocol);
    [reflexivity
    | by rewrite lookup_delete_ne, lookup_delete_eq
    | apply lookup_delete_eq
    | by rewrite !lookup_delete_ne
    | done].
Qed.

(** The whole run of [submit_csm_udh] on a message of 2 to 255 chunks. *)
Lemma submit_csm_udh_segments :
  pdu_params !! "esm_class" = None ->
  let parts := length (csm_split_message message) in
  (parts <= 255)%nat ->
  submit_csm_udh vumi_message_id destination_addr pdu_params self
  = (inr (assigned (next_sequence_number protocol) parts),
     after_submissions (after_stash self vumi_message_id parts) protocol parts
       (imap (fun j msg =>
                ProtocolSubmitSm vumi_message_id destination_addr
                  (udh_kw (sequence_generator self) parts
                          (delete "short_message" pdu_params) j msg))
             (csm_split_message message))).
Proof.
  intros Hclass parts Hfew.
  rewrite (submit_csm_udh_many _ _ _ _ short_message_given _ Hclass
             several_chunks).
  rewrite (udh_segments_connected _ _ _ _ _ _ _ protocol)
    by (done || apply lookup_delete_eq || (by rewrite lookup_delete_ne)
        || cbn; lia).
  reflexivity.
Qed.

End Segments.

(** The optional parameters of segment [i] (counted from 0): the reference
    number modulo 0xFFFF, the number of chunks, the index from 1, and the
    caller's values under every other key. *)
Lemma sar_optional_lookup (ref_num : Z) (total i : nat)
    (optional_parameters : gmap string scalar) :
  let sent := sar_optional ref_num total i optional_parameters in
  sent !! "sar_msg_ref_num" = Some (SInt (ref_num mod 0xFFFF)) /\
  sent !! "sar_total_segments" = Some (SInt (Z.of_nat total)) /\
  sent !! "sar_segment_seqnum" = Some (SInt (Z.of_nat i + 1)) /\
  (forall key : string,
      key <> "sar_msg_ref_num"%string -> key <> "sar_total_segments"%string ->
      key <> "sar_segment_seqnum"%string ->
      sent !! key = optional_parameters !! key).
Proof.
  unfold sar_optional. cbn zeta.
  split; [by rewrite !lookup_insert_ne, lookup_insert_eq by done |].
  split; [by rewrite lookup_insert_ne, lookup_insert_eq by done |].
  split; [by rewrite lookup_insert_eq |].
  intros key H1 H2 H3. by rewrite !lookup_insert_ne by done.
Qed.

(** The six bytes of the header of segment [i] (counted from 0), as
    numbers. *)
Lemma udh_header_bytes (ref_num : Z) (total i : nat) :
  (total <= 255)%nat -> (i < total)%nat ->
  ord <$> udh_header ref_num total i
  = [0x05; 0x00; 0x03; ref_num mod 0xFF; Z.of_nat total; Z.of_nat i + 1].
Proof.
  intros Htotal Hi. unfold udh_header. cbn [fmap list_fmap].
  rewrite (ord_byte_of (ref_num mod 0xFF)) by apply reference_byte_range.
  by rewrite !ord_byte_of by lia.
Qed.

(** ** The reference number of the segments *)

(** C1 at the reference number 65535: both segments of a message of two
    chunks carry [sar_msg_ref_num] 0, where the reference number modulo
    0x10000 is 65535. *)
Theorem sar_reference_number_at_65535 :
  let run := submit_csm_sar "abc123" "dest_addr"
               (Samples.send Samples.long_text) (Samples.connected 65535) in
  submitted_optional "sar_msg_ref_num" <$> calls run.2
    = [None; None; Some (SInt 0); Some (SInt 0)] /\
  submitted_optional "sar_total_segments" <$> calls run.2
    = [None; None; Some (SInt 2); Some (SInt 2)] /\
  submitted_optional "sar_segment_seqnum" <$> calls run.2
    = [None; None; Some (SInt 1); Some (SInt 2)] /\
  65535 mod 0x10000 = 65535.
Proof. vm_compute. done. Qed.

(** C2 at the reference number 255: the fourth byte of the header of both
    segments of a message of two chunks is 0x00, where the reference number
    modulo 0x100 is 0xFF. *)
Theorem udh_reference_number_at_255 :
  let run := submit_csm_udh "abc123" "dest_addr"
               (Samples.send Samples.long_text) (Samples.connected 255) in
  submitted_short_message <$> calls run.2
    = [None; None;
       Some ([x05; x00; x03; x00; x02; x01] ++ take 130 Samples.long_text);
       Some ([x05; x00; x03; x00; x02; x02] ++ drop 130 Samples.long_text)] /\
  submitted_parameter "esm_class" <$> calls run.2
    = [None; None; Some (VInt 0x40); Some (VInt 0x40)] /\
  chr (255 mod 0x100) = Some xff.
Proof. vm_compute. done. Qed.

(** * Further properties of the service *)

(** ** Chunks *)

(** Every chunk of a split fits in one message, so that splitting a chunk
    again returns it alone. *)
Theorem chunks_fit_in_one_message (message chunk : bytes) :
  chunk ∈ csm_split_message message ->
  _fits_in_one_message chunk = true /\
  csm_split_message chunk = [chunk] /\
  (length chunk <= GSM_MAX_SMS_7BIT_CHARS)%nat.
Proof.
  intros Hchunk.
  assert (_fits_in_one_message chunk = true) as Hfits.
  { unfold csm_split_message in Hchunk.
    destruct (_fits_in_one_message message) eqn:Hfit.
    - apply list_elem_of_singleton in Hchunk. by subst.
    - apply list_elem_of_lookup in Hchunk as [i Hi].
      apply split_loop_chunk in Hi as [-> _].
      unfold _fits_in_one_message.
      rewrite length_take, payload_length_130.
      destruct (Nat.leb_spec (130 `min` length (drop (i * 130) message))
                             GSM_MAX_SMS_BYTES) as [_|Hlong]; [done |].
      unfold GSM_MAX_SMS_BYTES in Hlong. lia. }
  split; [done |]. split.
  - unfold csm_split_message. by rewrite Hfits.
  - unfold _fits_in_one_message, GSM_MAX_SMS_BYTES, GSM_MAX_SMS_7BIT_CHARS
      in *.
    destruct (Nat.leb_spec (length chunk) 140); [lia |].
    destruct (Nat.leb_spec (length chunk) 160); [lia | done].
Qed.

Lemma chunks_fit_in_one_message_witness :
  csm_split_message (take 130 Samples.long_text) = [take 130 Samples.long_text].
Proof.
  apply (chunks_fit_in_one_message Samples.long_text).
  vm_compute. apply list_elem_of_here.
Defined.

(** A message of 141 to 160 bytes with a byte outside 0x20..0x7F, and every
    message of 161 to 260 bytes, is cut in two: the first 130 bytes and the
    rest. *)
Theorem split_in_two (message : bytes) :
  ((140 < length message <= 160)%nat ->
     ~ Forall (fun ch => 0x20 ≤ ord ch ≤ 0x7f) message ->
     csm_split_message message = [take 130 message; drop 130 message]) /\
  ((160 < length message <= 260)%nat ->
     csm_split_message message = [take 130 message; drop 130 message]).
Proof.
  assert ((140 < length message <= 260)%nat ->
          _fits_in_one_message message = false ->
          csm_split_message message = [take 130 message; drop 130 message])
    as Htwo.
  { intros Hlen Hfit. unfold csm_split_message. rewrite Hfit.
    rewrite split_loop_step by (intros ->; cbn in Hlen; lia).
    rewrite payload_length_130. f_equal.
    rewrite split_loop_step
      by (intros Hnil%(f_equal length); rewrite length_drop in Hnil;
          cbn in Hnil; lia).
    rewrite payload_length_130, take_ge by (rewrite length_drop; lia).
    f_equal.
    rewrite drop_ge by (rewrite length_drop; lia). apply split_loop_nil. }
  split.
  - intros Hlen Hbyte. apply Htwo; [lia |].
    unfold _fits_in_one_message, GSM_MAX_SMS_BYTES, GSM_MAX_SMS_7BIT_CHARS.
    destruct (Nat.leb_spec (length message) 140); [lia |].
    destruct (Nat.leb_spec (length message) 160); [| done].
    apply not_true_is_false. by rewrite forallb_printable.
  - intros Hlen. apply Htwo; [lia |].
    unfold _fits_in_one_message, GSM_MAX_SMS_BYTES, GSM_MAX_SMS_7BIT_CHARS.
    destruct (Nat.leb_spec (length message) 140); [lia |].
    destruct (Nat.leb_spec (length message) 160); [lia | done].
Qed.

Lemma split_in_two_witness :
  csm_split_message (replicate 150 x0a)
    = [replicate 130 x0a; replicate 20 x0a] /\
  csm_split_message (replicate 260 "a"%byte)
    = [replicate 130 "a"%byte; replicate 130 "a"%byte].
Proof.
  split.
  - rewrite (proj1 (split_in_two (replicate 150 x0a))).
    + reflexivity.
    + rewrite length_replicate. lia.
    + change (replicate 150 x0a) with (x0a :: replicate 149 x0a).
      intros Hall%Forall_inv. vm_compute in Hall. destruct Hall as [Hlow _].
      by apply Hlow.
  - rewrite (proj2 (split_in_two (replicate 260 "a"%byte))).
    + reflexivity.
    + rewrite length_replicate. lia.
Defined.

(** ** The hex payload *)

Lemma format_02x_lower_hex (c : byte) :
  lower_hex (hex_digit (ord c / 16)) = true /\
  lower_hex (hex_digit (ord c mod 16)) = true.
Proof. destruct c; vm_compute; done. Qed.

(** The payload is written with the characters [0-9a-f] only, and two
    messages with the same payload are the same message. *)
Theorem hexlify_lower_hex_injective (long_message other : bytes) :
  Forall (fun ch => lower_hex ch = true) (hexlify long_message) /\
  (hexlify long_message = hexlify other -> long_message = other).
Proof.
  split.
  - induction long_message as [|c rest IH]; [constructor |].
    rewrite hexlify_cons.
    destruct (format_02x_lower_hex c) as [Hhigh Hlow].
    by repeat constructor.
  - intros Hsame. apply (f_equal unhexlify) in Hsame.
    rewrite !unhexlify_hexlify in Hsame. by simplify_eq.
Qed.

Lemma hexlify_lower_hex_injective_witness :
  Forall (fun ch => lower_hex ch = true) (hexlify Samples.elephant) /\
  take 8 Samples.long_text <> Samples.elephant.
Proof.
  split.
  - apply (proj1 (hexlify_lower_hex_injective Samples.elephant [])).
  - intros Hsame. assert (hexlify (take 8 Samples.long_text)
                          = hexlify Samples.elephant) as Hhex by (by f_equal).
    vm_compute in Hhex. discriminate Hhex.
Defined.

(** ** Errors raised before anything is done *)

(** Both multipart paths pop [short_message]: without it they raise
    [KeyError] and leave the service as it was. *)
Theorem multipart_without_short_message (self : SmppService)
    (vumi_message_id destination_addr : string) (pdu_params : kwargs) :
  pdu_params !! "short_message" = None ->
  submit_csm_sar vumi_message_id destination_addr pdu_params self
    = (inl (KeyError "short_message"), self) /\
  (pdu_params !! "esm_class" = None ->
     submit_csm_udh vumi_message_id destination_addr pdu_params self
       = (inl (KeyError "short_message"), self)).
Proof.
  intros Hmissing. split; [| intros Hclass].
  - unfold submit_csm_sar, pop. by rewrite Hmissing.
  - unfold submit_csm_udh, pop.
    rewrite bool_decide_eq_false_2 by (rewrite Hclass; by intros [? ?]).
    by rewrite Hmissing.
Qed.

Lemma multipart_without_short_message_witness :
  submit_csm_sar "abc123" "dest_addr" ∅ (Samples.connected 7)
    = (inl (KeyError "short_message"), Samples.connected 7) /\
  submit_csm_udh "abc123" "dest_addr" ∅ (Samples.connected 7)
    = (inl (KeyError "short_message"), Samples.connected 7).
Proof.
  destruct (multipart_without_short_message (Samples.connected 7)
              "abc123" "dest_addr" ∅ (lookup_empty _)) as [Hsar Hudh].
  split; [exact Hsar | apply Hudh, lookup_empty].
Defined.

(** [submit_sm_long] without [short_message]: an [optional_parameters] that
    is not a dict raises [AttributeError]; otherwise an [sm_length] of the
    caller raises [TypeError].  Both come before the look for a session and
    leave the service as it was. *)
Theorem submit_sm_long_rejections (self : SmppService)
    (vumi_message_id destination_addr : string) (long_message : bytes)
    (pdu_params : kwargs) :
  pdu_params !! "short_message" = None ->
  (forall given : value,
     pdu_params !! "optional_parameters" = Some given ->
     (forall d, given <> VDict d) ->
     submit_sm_long vumi_message_id destination_addr long_message pdu_params
                    self = (inl AttributeError, self)) /\
  (forall given : value,
     pdu_params !! "sm_length" = Some given ->
     (forall other, pdu_params !! "optional_parameters" = Some other ->
                    exists d, other = VDict d) ->
     submit_sm_long vumi_message_id destination_addr long_message pdu_params
                    self = (inl TypeError, self)).
Proof.
  intros Hshort. split.
  - intros given Hgiven Hother. apply submit_sm_long_not_dict; [done |].
    intros d. rewrite Hgiven. cbn. apply Hother.
  - intros given Hgiven Hdict.
    destruct (pdu_params !! "optional_parameters") as [other|] eqn:Hoptional.
    + destruct (Hdict other eq_refl) as [d ->].
      apply (submit_sm_long_duplicate _ _ _ _ _ Hshort d);
        [by rewrite Hoptional | by rewrite Hgiven].
    + apply (submit_sm_long_duplicate _ _ _ _ _ Hshort ∅);
        [by rewrite Hoptional | by rewrite Hgiven].
Qed.

Lemma submit_sm_long_rejections_witness :
  submit_sm_long "abc123" "dest_addr" Samples.elephant
                 {[ "optional_parameters"%string := VInt 1 ]}
                 (Samples.disconnected 7)
    = (inl AttributeError, Samples.disconnected 7) /\
  submit_sm_long "abc123" "dest_addr" Samples.elephant
                 {[ "sm_length"%string := VInt 8 ]}
                 (Samples.disconnected 7)
    = (inl TypeError, Samples.disconnected 7).
Proof.
  split.
  - eapply (proj1 (submit_sm_long_rejections (Samples.disconnected 7)
                     "abc123" "dest_addr" Samples.elephant _ _) (VInt 1)).
    + vm_compute. reflexivity.
    + discriminate.
  - eapply (proj2 (submit_sm_long_rejections (Samples.disconnected 7)
                     "abc123" "dest_addr" Samples.elephant _ _) (VInt 8)).
    + vm_compute. reflexivity.
    + intros other Hother. vm_compute in Hother. discriminate Hother.
  Unshelve.
  all: vm_compute; reflexivity.
Defined.

(** The copy of [optional_parameters] comes before the draw. *)
Lemma sar_optional_not_dict (self : SmppService)
    (vumi_message_id destination_addr : string) (pdu_params : kwargs)
    (message : bytes) :
  pdu_params !! "short_message" = Some (VStr message) ->
  (1 < length (csm_split_message message))%nat ->
  (forall d, default (VDict ∅) (pdu_params !! "optional_parameters")
               <> VDict d) ->
  submit_csm_sar vumi_message_id destination_addr pdu_params self
    = (inl AttributeError, self).
Proof.
  intros Hmessage Hmany Hother. unfold submit_csm_sar, pop.
  rewrite Hmessage, bind_lift_ok. cbn [as_str]. rewrite bind_lift_ok.
  cbn zeta. unfold pop_optional_parameters.
  rewrite lookup_delete_ne by done.
  destruct (csm_split_message message) as [|first [|second more]];
    [cbn in Hmany; lia | cbn in Hmany; lia |].
  destruct (default (VDict ∅) (pdu_params !! "optional_parameters"))
    as [n|s|d]; [done | done | by destruct (Hother d)].
Qed.

(** [submit_csm_sar] on a message of several chunks copies
    [optional_parameters] before it draws the reference number: a value that
    is not a dict raises [AttributeError] and leaves the service as it
    was. *)
Theorem submit_csm_sar_optional_not_dict (self : SmppService)
    (vumi_message_id destination_addr : string) (pdu_params : kwargs)
    (message : bytes) (given : value) :
  pdu_params !! "short_message" = Some (VStr message) ->
  (1 < length (csm_split_message message))%nat ->
  pdu_params !! "optional_parameters" = Some given ->
  (forall d, given <> VDict d) ->
  submit_csm_sar vumi_message_id destination_addr pdu_params self
    = (inl AttributeError, self).
Proof.
  intros Hmessage Hmany Hgiven Hother. unfold submit_csm_sar, pop.
  rewrite Hmessage, bind_lift_ok. cbn [as_str]. rewrite bind_lift_ok.
  cbn zeta.
  assert (pop_optional_parameters (delete "short_message" pdu_params)
          = inl AttributeError) as Hpop.
  { unfold pop_optional_parameters.
    rewrite lookup_delete_ne, Hgiven by done. cbn.
    destruct given as [n|s|d]; [done | done | by destruct (Hother d)]. }
  destruct (csm_split_message message) as [|first [|second more]];
    [cbn in Hmany; lia | cbn in Hmany; lia |].
  by rewrite Hpop.
Qed.

Lemma submit_csm_sar_optional_not_dict_witness :
  submit_csm_sar "abc123" "dest_addr"
                 (<["optional_parameters" := VStr []]>
                    (Samples.send Samples.long_text))
                 (Samples.connected 7)
    = (inl AttributeError, Samples.connected 7).
Proof.
  apply (submit_csm_sar_optional_not_dict (Samples.connected 7)
           "abc123" "dest_addr" _ Samples.long_text (VStr []));
    [vm_compute; reflexivity | vm_compute; lia | vm_compute; reflexivity
    | discriminate].
Defined.

(** ** A multipart send with a session *)

Lemma assigned_length (first : Z) (count : nat) :
  length (assigned first count) = count.
Proof.
  revert first. induction count as [|count IH]; intros first; [done |].
  cbn. by rewrite IH.
Qed.

Lemma assigned_lookup (first : Z) (count i : nat) :
  (i < count)%nat -> assigned first count !! i = Some (first + Z.of_nat i).
Proof.
  revert first i. induction count as [|count IH]; intros first i Hi; [lia |].
  destruct i as [|i]; cbn.
  - f_equal. lia.
  - rewrite IH by lia. f_equal. lia.
Qed.

Lemma short_messages_imap (f : nat -> bytes -> call)
    (g : nat -> bytes -> bytes) (chunks : list bytes) :
  (forall j msg, submitted_short_message (f j msg) = Some (g j msg)) ->
  short_messages (imap f chunks) = imap g chunks.
Proof.
  revert f g. induction chunks as [|msg rest IH]; intros f g Hfg; [done |].
  rewrite !imap_cons. unfold short_messages. cbn [omap list_omap].
  rewrite Hfg. f_equal. apply IH. intros j chunk. apply Hfg.
Qed.

Lemma short_messages_app (made later : list call) :
  short_messages (made ++ later) = short_messages made ++ short_messages later.
Proof. apply omap_app. Qed.

(** The state a multipart send leaves, written out. *)
Lemma after_multipart (self : SmppService) (protocol : EsmeProtocol)
    (vumi_message_id : string) (parts : nat) (segments : list call) :
  after_submissions (after_stash self vumi_message_id parts) protocol parts
                    segments
  = {| _protocol := Some {| next_sequence_number :=
                              next_sequence_number protocol + Z.of_nat parts |};
       sequence_generator := sequence_generator self + 1;
       message_stash := <[vumi_message_id := parts]> (message_stash self);
       calls := calls self
                  ++ SequenceNext (sequence_generator self)
                  :: InitMultipartInfo vumi_message_id parts
                  :: segments |}.
Proof.
  unfold after_submissions, after_stash. cbn. by rewrite <- app_assoc.
Qed.

(** With a session and no keyword [protocol] among the parameters,
    [submit_csm_sar] on a message of several chunks draws one reference
    number, writes the stash entry and submits the chunks in
    order, one PDU each.  Segment [i] (from 0) carries chunk [i] as its short
    message, [sar_msg_ref_num] the reference number modulo 0xFFFF (so below
    0xFFFF, the same on all segments), [sar_total_segments] the number of
    chunks and [sar_segment_seqnum] [i + 1]; every other optional parameter
    and every other parameter is the caller's.  The call returns one sequence
    number per chunk. *)
Theorem submit_csm_sar_run (self : SmppService) (protocol : EsmeProtocol)
    (vumi_message_id destination_addr : string) (pdu_params : kwargs)
    (message : bytes) (optional_parameters : gmap string scalar) :
  _protocol self = Some protocol ->
  pdu_params !! "short_message" = Some (VStr message) ->
  pdu_params !! "protocol" = None ->
  default (VDict ∅) (pdu_params !! "optional_parameters")
    = VDict optional_parameters ->
  (1 < length (csm_split_message message))%nat ->
  let chunks := csm_split_message message in
  let parts := length chunks in
  let ref_num := sequence_generator self in
  exists sequence_numbers segments,
    submit_csm_sar vumi_message_id destination_addr pdu_params self
      = (inr sequence_numbers,
         {| _protocol := Some {| next_sequence_number :=
                                   next_sequence_number protocol
                                   + Z.of_nat parts |};
            sequence_generator := ref_num + 1;
            message_stash := <[vumi_message_id := parts]> (message_stash self);
            calls := calls self
                       ++ SequenceNext ref_num
                       :: InitMultipartInfo vumi_message_id parts
                       :: segments |}) /\
    length sequence_numbers = parts /\
    length segments = parts /\
    0 ≤ ref_num mod 0xFFFF < 0xFFFF /\
    (forall (i : nat) (chunk : bytes), chunks !! i = Some chunk ->
       sequence_numbers !! i
         = Some (next_sequence_number protocol + Z.of_nat i) /\
       exists kw sent,
         segments !! i
           = Some (ProtocolSubmitSm vumi_message_id destination_addr kw) /\
         kw !! "short_message" = Some (VStr chunk) /\
         kw !! "optional_parameters" = Some (VDict sent) /\
         (forall key : string,
             key <> "short_message"%string ->
             key <> "optional_parameters"%string ->
             kw !! key = pdu_params !! key) /\
         sent !! "sar_msg_ref_num" = Some (SInt (ref_num mod 0xFFFF)) /\
         sent !! "sar_total_segments" = Some (SInt (Z.of_nat parts)) /\
         sent !! "sar_segment_seqnum" = Some (SInt (Z.of_nat i + 1)) /\
         (forall key : string,
             key <> "sar_msg_ref_num"%string ->
             key <> "sar_total_segments"%string ->
             key <> "sar_segment_seqnum"%string ->
             sent !! key = optional_parameters !! key)).
Proof.
  intros Hprotocol Hmessage Hfree Hoptional Hmany chunks parts ref_num.
  rewrite (submit_csm_sar_segments self protocol _ _ _ _ Hprotocol Hmessage
             Hmany Hfree _ Hoptional).
  fold chunks parts ref_num. rewrite after_multipart.
  eexists _, _. split; [reflexivity |].
  split; [apply assigned_length |]. split; [apply length_imap |].
  split; [apply Z.mod_pos_bound; lia |].
  intros i chunk Hi. split.
  { apply assigned_lookup. by eapply lookup_lt_Some. }
  rewrite list_lookup_imap, Hi. cbn [fmap option_fmap option_map].
  eexists _, _. split; [reflexivity |]. unfold sar_kw.
  split; [by rewrite lookup_insert_eq |].
  split; [by rewrite lookup_insert_ne, lookup_insert_eq by done |].
  split.
  { intros key H1 H2. by rewrite !lookup_insert_ne, !lookup_delete_ne by done. }
  apply sar_optional_lookup.
Qed.

Lemma submit_csm_sar_run_witness :
  exists sequence_numbers self',
    submit_csm_sar "abc123" "dest_addr" (Samples.send Samples.long_text)
                   (Samples.connected 65536)
      = (inr sequence_numbers, self') /\
    length sequence_numbers = 2%nat /\
    submitted_optional "sar_msg_ref_num" <$> drop 2 (calls self')
      = [Some (SInt 1); Some (SInt 1)].
Proof.
  destruct (submit_csm_sar_run (Samples.connected 65536)
              {| next_sequence_number := 1 |} "abc123" "dest_addr"
              (Samples.send Samples.long_text) Samples.long_text ∅)
    as (sequence_numbers & segments & Hrun & Hnumbers & _);
    [reflexivity | reflexivity | reflexivity | reflexivity
    | vm_compute; lia |].
  eexists _, _. split; [exact Hrun |]. split; [exact Hnumbers |].
  vm_compute in Hrun. injection Hrun as _ <-. reflexivity.
Defined.

(** With a session and no keyword [protocol] among the parameters,
    [submit_csm_udh] on a message of 2 to 255 chunks draws one reference
    number, writes the stash entry and submits the chunks in
    order, one PDU each.  The short message of segment [i] (from 0) is a
    header of six bytes, 5, 0, 3, the reference number modulo 0xFF, the
    number of chunks and [i + 1], followed by chunk [i]; [esm_class] is 0x40
    and every other parameter, [optional_parameters] included, is the
    caller's.  The call returns one sequence number per chunk. *)
Theorem submit_csm_udh_run (self : SmppService) (protocol : EsmeProtocol)
    (vumi_message_id destination_addr : string) (pdu_params : kwargs)
    (message : bytes) :
  _protocol self = Some protocol ->
  pdu_params !! "short_message" = Some (VStr message) ->
  pdu_params !! "protocol" = None ->
  pdu_params !! "esm_class" = None ->
  (1 < length (csm_split_message message) <= 255)%nat ->
  let chunks := csm_split_message message in
  let parts := length chunks in
  let ref_num := sequence_generator self in
  exists sequence_numbers segments,
    submit_csm_udh vumi_message_id destination_addr pdu_params self
      = (inr sequence_numbers,
         {| _protocol := Some {| next_sequence_number :=
                                   next_sequence_number protocol
                                   + Z.of_nat parts |};
            sequence_generator := ref_num + 1;
            message_stash := <[vumi_message_id := parts]> (message_stash self);
            calls := calls self
                       ++ SequenceNext ref_num
                       :: InitMultipartInfo vumi_message_id parts
                       :: segments |}) /\
    length sequence_numbers = parts /\
    length segments = parts /\
    0 ≤ ref_num mod 0xFF < 0xFF /\
    (forall (i : nat) (chunk : bytes), chunks !! i = Some chunk ->
       sequence_numbers !! i
         = Some (next_sequence_number protocol + Z.of_nat i) /\
       exists kw header,
         segments !! i
           = Some (ProtocolSubmitSm vumi_message_id destination_addr kw) /\
         kw !! "short_message" = Some (VStr (header ++ chunk)) /\
         ord <$> header
           = [0x05; 0x00; 0x03;
              ref_num mod 0xFF; Z.of_nat parts; Z.of_nat i + 1] /\
         kw !! "esm_class" = Some (VInt 0x40) /\
         (forall key : string,
             key <> "short_message"%string -> key <> "esm_class"%string ->
             kw !! key = pdu_params !! key)).
Proof.
  intros Hprotocol Hmessage Hfree Hclass [Hmany Hfew] chunks parts ref_num.
  rewrite (submit_csm_udh_segments self protocol _ _ _ _ Hprotocol Hmessage
             Hmany Hfree Hclass Hfew).
  fold chunks parts ref_num. rewrite after_multipart.
  eexists _, _. split; [reflexivity |].
  split; [apply assigned_length |]. split; [apply length_imap |].
  split; [apply Z.mod_pos_bound; lia |].
  intros i chunk Hi.
  assert (i < parts)%nat as Hlt by (by eapply lookup_lt_Some).
  split; [by apply assigned_lookup |].
  rewrite list_lookup_imap, Hi. cbn [fmap option_fmap option_map].
  eexists _, _. split; [reflexivity |]. unfold udh_kw.
  split; [by rewrite lookup_insert_eq |].
  split; [apply udh_header_bytes; [exact Hfew | exact Hlt] |].
  split; [by rewrite lookup_insert_ne, lookup_insert_eq by done |].
  intros key H1 H2. by rewrite !lookup_insert_ne, lookup_delete_ne by done.
Qed.

Lemma submit_csm_udh_run_witness :
  exists sequence_numbers self',
    submit_csm_udh "abc123" "dest_addr" (Samples.send Samples.long_text)
                   (Samples.connected 256)
      = (inr sequence_numbers, self') /\
    length sequence_numbers = 2%nat /\
    (take 6 <$> short_messages (calls self'))
      = [[x05; x00; x03; x01; x02; x01]; [x05; x00; x03; x01; x02; x02]].
Proof.
  destruct (submit_csm_udh_run (Samples.connected 256)
              {| next_sequence_number := 1 |} "abc123" "dest_addr"
              (Samples.send Samples.long_text) Samples.long_text)
    as (sequence_numbers & segments & Hrun & Hnumbers & _);
    [reflexivity | reflexivity | reflexivity | reflexivity
    | vm_compute; lia |].
  eexists _, _. split; [exact Hrun |]. split; [exact Hnumbers |].
  vm_compute in Hrun. injection Hrun as _ <-. reflexivity.
Defined.

(** ** What the segments of a send add up to *)

Section Content.

Variables (self : SmppService) (protocol : EsmeProtocol).
Variables (vumi_message_id destination_addr : string).
Variables (pdu_params : kwargs) (message : bytes).

Hypothesis connected : _protocol self = Some protocol.
Hypothesis short_message_given :
  pdu_params !! "short_message" = Some (VStr message).
Hypothesis several_chunks : (1 < length (csm_split_message message))%nat.
Hypothesis no_protocol_keyword : pdu_params !! "protocol" = None.

Lemma several_chunks_split :
  csm_split_message message = split_loop message [].
Proof.
  unfold csm_split_message in *.
  destruct (_fits_in_one_message message); [cbn in several_chunks; lia | done].
Qed.

Lemma several_chunks_short :
  Forall (fun chunk : bytes => (length chunk <= 130)%nat)
         (csm_split_message message).
Proof.
  rewrite several_chunks_split. apply Forall_lookup. intros i chunk Hi.
  apply split_loop_chunk in Hi as [-> _].
  rewrite length_take, payload_length_130. lia.
Qed.

Lemma sar_short_messages (optional_parameters : gmap string scalar) :
  default (VDict ∅) (pdu_params !! "optional_parameters")
    = VDict optional_parameters ->
  short_messages
    (calls (submit_csm_sar vumi_message_id destination_addr pdu_params
                           self).2)
  = short_messages (calls self) ++ csm_split_message message.
Proof.
  intros Hoptional.
  rewrite (submit_csm_sar_segments self protocol _ _ _ _ connected
             short_message_given several_chunks no_protocol_keyword _
             Hoptional).
  rewrite after_multipart. cbn [snd calls].
  rewrite short_messages_app. f_equal.
  change (short_messages (?a :: ?b :: ?made)) with (short_messages made).
  rewrite (short_messages_imap _ (fun _ msg => msg)).
  - by rewrite (imap_const id), list_fmap_id.
  - intros j msg. unfold sar_kw. cbn. by rewrite lookup_insert_eq.
Qed.

Lemma udh_short_messages :
  pdu_params !! "esm_class" = None ->
  (length (csm_split_message message) <= 255)%nat ->
  short_messages
    (calls (submit_csm_udh vumi_message_id destination_addr pdu_params
                           self).2)
  = short_messages (calls self)
      ++ imap (fun j msg =>
                 udh_header (sequence_generator self)
                            (length (csm_split_message message)) j ++ msg)
              (csm_split_message message).
Proof.
  intros Hclass Hfew.
  rewrite (submit_csm_udh_segments self protocol _ _ _ _ connected
             short_message_given several_chunks no_protocol_keyword Hclass
             Hfew).
  rewrite after_multipart. cbn [snd calls].
  rewrite short_messages_app. f_equal.
  change (short_messages (?a :: ?b :: ?made)) with (short_messages made).
  apply short_messages_imap.
  intros j msg. unfold udh_kw. cbn. by rewrite lookup_insert_eq.
Qed.

End Content.

(** With a session and no keyword [protocol] among the parameters, the
    short messages [submit_csm_sar] submits for a message of several chunks,
    joined in the order of submission, are the message, and none has more
    than 130 bytes. *)
Theorem sar_segments_rebuild_message (self : SmppService)
    (protocol : EsmeProtocol) (vumi_message_id destination_addr : string)
    (pdu_params : kwargs) (message : bytes)
    (optional_parameters : gmap string scalar) :
  _protocol self = Some protocol ->
  pdu_params !! "short_message" = Some (VStr message) ->
  pdu_params !! "protocol" = None ->
  default (VDict ∅) (pdu_params !! "optional_parameters")
    = VDict optional_parameters ->
  (1 < length (csm_split_message message))%nat ->
  exists sent,
    short_messages
      (calls (submit_csm_sar vumi_message_id destination_addr pdu_params
                             self).2)
      = short_messages (calls self) ++ sent /\
    concat sent = message /\
    Forall (fun short_message : bytes =>
              (0 < length short_message <= 130)%nat) sent.
Proof.
  intros Hprotocol Hmessage Hfree Hoptional Hmany.
  exists (csm_split_message message).
  split; [by eapply sar_short_messages |].
  rewrite (several_chunks_split _ Hmany).
  split; [apply split_loop_concat |].
  apply Forall_lookup. intros i chunk Hi.
  pose proof (split_loop_chunk_nonempty message) as Hnonempty.
  rewrite Forall_lookup in Hnonempty. specialize (Hnonempty i chunk Hi).
  apply split_loop_chunk in Hi as [-> _].
  split; [destruct (take _ _); [done | cbn; lia] |].
  rewrite length_take, payload_length_130. lia.
Qed.

Lemma sar_segments_rebuild_message_witness :
  exists sent,
    short_messages
      (calls (submit_csm_sar "abc123" "dest_addr"
                (Samples.send Samples.long_text) (Samples.connected 7)).2)
      = sent /\
    concat sent = Samples.long_text.
Proof.
  destruct (sar_segments_rebuild_message (Samples.connected 7)
              {| next_sequence_number := 1 |} "abc123" "dest_addr"
              (Samples.send Samples.long_text) Samples.long_text ∅)
    as (sent & Hsent & Hjoined & _);
    [reflexivity | reflexivity | reflexivity | reflexivity
    | vm_compute; lia |].
  exists sent. split; [exact Hsent | exact Hjoined].
Defined.

(** With a session and no keyword [protocol] among the parameters, the
    short messages [submit_csm_udh] submits for a message of 2 to 255 chunks
    have 7 to 136 bytes each, within the 140 bytes of one message;
    without their first six bytes and joined in the order of submission,
    they are the message. *)
Theorem udh_segments_rebuild_message (self : SmppService)
    (protocol : EsmeProtocol) (vumi_message_id destination_addr : string)
    (pdu_params : kwargs) (message : bytes) :
  _protocol self = Some protocol ->
  pdu_params !! "short_message" = Some (VStr message) ->
  pdu_params !! "protocol" = None ->
  pdu_params !! "esm_class" = None ->
  (1 < length (csm_split_message message) <= 255)%nat ->
  exists sent,
    short_messages
      (calls (submit_csm_udh vumi_message_id destination_addr pdu_params
                             self).2)
      = short_messages (calls self) ++ sent /\
    concat (drop 6 <$> sent) = message /\
    Forall (fun short_message : bytes =>
              (6 < length short_message <= 136)%nat /\
              (length short_message <= GSM_MAX_SMS_BYTES)%nat) sent.
Proof.
  intros Hprotocol Hmessage Hfree Hclass [Hmany Hfew].
  eexists. split; [by eapply udh_short_messages |].
  rewrite (several_chunks_split _ Hmany). split.
  - rewrite fmap_imap.
    rewrite (imap_ext _ (fun _ msg => msg)) by done.
    rewrite (imap_const id), list_fmap_id. apply split_loop_concat.
  - apply Forall_lookup. intros i short_message Hi.
    apply list_lookup_imap_Some in Hi as (chunk & Hi & ->).
    pose proof (split_loop_chunk_nonempty message) as Hnonempty.
    rewrite Forall_lookup in Hnonempty. specialize (Hnonempty i chunk Hi).
    apply split_loop_chunk in Hi as [-> _].
    rewrite length_app. change (length (udh_header _ _ _)) with 6%nat.
    assert (0 < length (take payload_length
                          (drop (i * payload_length) message)))%nat
      by (destruct (take _ _); [done | cbn; lia]).
    rewrite length_take, payload_length_130 in *.
    unfold GSM_MAX_SMS_BYTES. lia.
Qed.

Lemma udh_segments_rebuild_message_witness :
  exists sent,
    short_messages
      (calls (submit_csm_udh "abc123" "dest_addr"
                (Samples.send Samples.long_text) (Samples.connected 7)).2)
      = sent /\
    concat (drop 6 <$> sent) = Samples.long_text.
Proof.
  destruct (udh_segments_rebuild_message (Samples.connected 7)
              {| next_sequence_number := 1 |} "abc123" "dest_addr"
              (Samples.send Samples.long_text) Samples.long_text)
    as (sent & Hsent & Hjoined & _);
    [reflexivity | reflexivity | reflexivity | reflexivity
    | vm_compute; lia |].
  exists sent. split; [exact Hsent | exact Hjoined].
Defined.

(** ** More chunks than a byte counts *)

(** A message of more than 255 * 130 bytes has more than 255 chunks, and
    [submit_csm_udh] cannot write their number in one byte: with or without
    a session it raises [ValueError] in the first round of its loop.  No
    segment is submitted; the reference number is drawn and the stash entry
    is written. *)
Theorem submit_csm_udh_too_many_chunks (self : SmppService)
    (vumi_message_id destination_addr : string) (pdu_params : kwargs)
    (message : bytes) :
  pdu_params !! "short_message" = Some (VStr message) ->
  pdu_params !! "esm_class" = None ->
  (255 * 130 < length message)%nat ->
  let parts := length (csm_split_message message) in
  (255 < parts)%nat /\
  submit_csm_udh vumi_message_id destination_addr pdu_params self
    = (inl ValueError,
       {| _protocol := _protocol self;
          sequence_generator := sequence_generator self + 1;
          message_stash := <[vumi_message_id := parts]> (message_stash self);
          calls := calls self
                     ++ [SequenceNext (sequence_generator self);
                         InitMultipartInfo vumi_message_id parts] |}).
Proof.
  intros Hmessage Hclass Hlong parts.
  assert (csm_split_message message = split_loop message []) as Hsplit.
  { unfold csm_split_message, _fits_in_one_message, GSM_MAX_SMS_BYTES,
      GSM_MAX_SMS_7BIT_CHARS.
    destruct (Nat.leb_spec (length message) 140); [lia |].
    destruct (Nat.leb_spec (length message) 160); [lia | done]. }
  assert (255 < parts)%nat as Hmany.
  { unfold parts. rewrite Hsplit. apply chunk_index_in_range.
    by rewrite payload_length_130. }
  split; [done |].
  rewrite (submit_csm_udh_many _ _ _ _ Hmessage _ Hclass) by (fold parts; lia).
  fold parts. destruct (csm_split_message message) as [|msg rest];
    [cbn in parts; lia |].
  by rewrite udh_segments_too_many.
Qed.

Lemma submit_csm_udh_too_many_chunks_witness :
  (255 < length (csm_split_message (replicate (256 * 130) "a"%byte)))%nat.
Proof.
  apply (submit_csm_udh_too_many_chunks (Samples.disconnected 7)
           "abc123" "dest_addr"
           (Samples.send (replicate (256 * 130) "a"%byte))
           (replicate (256 * 130) "a"%byte)).
  - apply lookup_singleton_eq.
  - apply lookup_singleton_ne. discriminate.
  - rewrite length_replicate. lia.
Defined.

(** ** The guard, seen from every path *)

Section Guard.

Variables (self : SmppService) (vumi_message_id destination_addr : string).

Lemma guarded_refused (e : exception) :
  e <> NotConnected -> guarded self (inl e, self).
Proof.
  intros He. split; [intros Hnone | intros _; cbn; congruence].
  split; [by eexists | by split].
Qed.

Lemma guarded_submit_sm (kw : kwargs) :
  guarded self (submit_sm vumi_message_id destination_addr kw self).
Proof.
  destruct (_protocol self) as [protocol|] eqn:Hprotocol.
  - destruct (kw !! "protocol") as [given|] eqn:Hkeyword.
    + rewrite submit_sm_protocol_keyword
        by (by rewrite ?Hprotocol, ?Hkeyword).
      split; [intros Hnone; congruence | done].
    + rewrite (submit_sm_connected _ protocol) by done.
      split; [intros Hnone; congruence | done].
  - rewrite submit_sm_disconnected by done.
    split; [intros Hnone | intros [? ?]; congruence].
    split; [by eexists | by split].
Qed.

Lemma submissions_after_stash (parts : nat) :
  submissions (calls (after_stash self vumi_message_id parts))
  = submissions (calls self).
Proof.
  unfold submissions, after_stash. cbn [calls].
  rewrite List.filter_app. cbn. apply app_nil_r.
Qed.

Lemma guarded_sar_segments (ref_num : Z) (parts : nat) (msg : bytes)
    (rest : list bytes) (pdu_params : kwargs)
    (optional_parameters : gmap string scalar) :
  pdu_params !! "short_message" = None ->
  pdu_params !! "optional_parameters" = None ->
  guarded self
    (sar_segments vumi_message_id destination_addr ref_num parts 0
                  (msg :: rest) pdu_params optional_parameters []
                  (after_stash self vumi_message_id parts)).
Proof.
  intros Hshort Hoptional.
  destruct (_protocol self) as [protocol|] eqn:Hprotocol.
  - destruct (pdu_params !! "protocol") as [given|] eqn:Hkeyword.
    + rewrite sar_segments_protocol_keyword
        by (done || by rewrite ?Hprotocol, ?Hkeyword).
      split; [intros Hnone; congruence | done].
    + rewrite (sar_segments_connected _ _ _ _ _ Hshort Hoptional _ _ _
                 protocol) by done.
      split; [intros Hnone; congruence | done].
  - rewrite sar_segments_disconnected by done.
    split; [intros Hnone | intros [? ?]; congruence].
    split; [by eexists |]. split; [done | apply submissions_after_stash].
Qed.

Lemma guarded_udh_segments (ref_num : Z) (parts : nat) (msg : bytes)
    (rest : list bytes) (pdu_params : kwargs) :
  pdu_params !! "short_message" = None ->
  parts = length (msg :: rest) ->
  guarded self
    (udh_segments vumi_message_id destination_addr ref_num parts 0
                  (msg :: rest) pdu_params []
                  (after_stash self vumi_message_id parts)).
Proof.
  intros Hshort Hparts.
  destruct (decide (parts <= 255)%nat) as [Hfew|Hmany].
  - destruct (_protocol self) as [protocol|] eqn:Hprotocol.
    + destruct (pdu_params !! "protocol") as [given|] eqn:Hkeyword.
      * rewrite udh_segments_protocol_keyword
          by (done || (cbn in Hparts; lia)
              || by rewrite ?Hprotocol, ?Hkeyword).
        split; [intros Hnone; congruence | done].
      * rewrite (udh_segments_connected _ _ _ _ _ _ _ protocol)
          by (done || lia).
        split; [intros Hnone; congruence | done].
    + rewrite udh_segments_disconnected by (done || cbn in Hparts; lia).
      split; [intros Hnone | intros [? ?]; congruence].
      split; [by eexists |]. split; [done | apply submissions_after_stash].
  - rewrite udh_segments_too_many by lia.
    split; [intros Hnone | done].
    split; [by eexists |]. split; [done | apply submissions_after_stash].
Qed.

Variable pdu_params : kwargs.

Lemma split_not_empty (message : bytes) : csm_split_message message <> [].
Proof.
  unfold csm_split_message.
  destruct (_fits_in_one_message message) eqn:Hfit; [done |].
  intros Hnil. pose proof (split_loop_many message Hfit) as Hmany.
  rewrite Hnil in Hmany. cbn in Hmany. lia.
Qed.

Lemma guarded_submit_sm_long (long_message : bytes) :
  guarded self (submit_sm_long vumi_message_id destination_addr long_message
                               pdu_params self).
Proof.
  destruct (pdu_params !! "short_message") as [given|] eqn:Hshort.
  - unfold submit_sm_long.
    rewrite bool_decide_eq_true_2 by (rewrite Hshort; by eexists).
    by apply guarded_refused.
  - destruct (submit_sm_long_cases self vumi_message_id destination_addr
                long_message pdu_params Hshort)
      as [[-> _] | [[-> _] | [[Hrun Hnone] | Hok]]].
    + by apply guarded_refused.
    + by apply guarded_refused.
    + rewrite Hrun. split; [intros _ | intros [? ?]; congruence].
      split; [by eexists | by split].
    + destruct Hok as (protocol & d & Hprotocol & _ & _ & _ & ->).
      split; [intros Hnone; congruence | done].
Qed.

Lemma guarded_submit_csm_sar :
  guarded self (submit_csm_sar vumi_message_id destination_addr pdu_params
                               self).
Proof.
  destruct (pdu_params !! "short_message") as [[n|message|d]|] eqn:Hmessage;
    try (unfold submit_csm_sar, pop; rewrite Hmessage;
         by apply guarded_refused).
  destruct (decide (length (csm_split_message message) = 1%nat)) as [|Hmany].
  { rewrite (submit_csm_sar_single _ _ _ _ Hmessage) by done.
    apply guarded_submit_sm. }
  pose proof (split_not_empty message) as Hsome.
  assert (1 < length (csm_split_message message))%nat as Hseveral.
  { destruct (csm_split_message message); [done | cbn in *; lia]. }
  destruct (default (VDict ∅) (pdu_params !! "optional_parameters"))
    as [n|s|d] eqn:Hoptional.
  - rewrite (sar_optional_not_dict _ _ _ _ message) by (done || congruence).
    by apply guarded_refused.
  - rewrite (sar_optional_not_dict _ _ _ _ message) by (done || congruence).
    by apply guarded_refused.
  - rewrite (submit_csm_sar_many _ _ _ _ Hmessage _ _ Hseveral Hoptional).
    destruct (csm_split_message message) as [|msg rest]; [done |].
    apply guarded_sar_segments; [| apply lookup_delete_eq].
    by rewrite lookup_delete_ne, lookup_delete_eq.
Qed.

Lemma guarded_submit_csm_udh :
  guarded self (submit_csm_udh vumi_message_id destination_addr pdu_params
                               self).
Proof.
  destruct (pdu_params !! "esm_class") as [given|] eqn:Hclass.
  { unfold submit_csm_udh.
    rewrite bool_decide_eq_true_2 by (rewrite Hclass; by eexists).
    by apply guarded_refused. }
  destruct (pdu_params !! "short_message") as [[n|message|d]|] eqn:Hmessage;
    try (unfold submit_csm_udh, pop;
         rewrite bool_decide_eq_false_2 by (rewrite Hclass; by intros [? ?]);
         rewrite Hmessage; by apply guarded_refused).
  destruct (decide (length (csm_split_message message) = 1%nat)) as [|Hmany].
  { rewrite (submit_csm_udh_single _ _ _ _ Hmessage) by done.
    apply guarded_submit_sm. }
  pose proof (split_not_empty message) as Hsome.
  assert (1 < length (csm_split_message message))%nat as Hseveral.
  { destruct (csm_split_message message); [done | cbn in *; lia]. }
  rewrite (submit_csm_udh_many _ _ _ _ Hmessage _ Hclass Hseveral).
  destruct (csm_split_message message) as [|msg rest]; [done |].
  apply guarded_udh_segments; [apply lookup_delete_eq | done].
Qed.

End Guard.

(** Without a session none of the four submission paths submits anything,
    whatever the parameters: each raises, and the service stays without a
    session.  ([short_message], when given, is a [str].) *)
Theorem no_session_nothing_submitted (self : SmppService)
    (vumi_message_id destination_addr : string) (long_message : bytes)
    (pdu_params : kwargs) :
  _protocol self = None ->
  (forall given, pdu_params !! "short_message" = Some given ->
                 exists message, given = VStr message) ->
  Forall (fun run : (exception + list Z) * SmppService =>
            (exists e, run.1 = inl e) /\
            _protocol run.2 = None /\
            submissions (calls run.2) = submissions (calls self))
    [submit_sm vumi_message_id destination_addr pdu_params self;
     submit_sm_long vumi_message_id destination_addr long_message pdu_params
                    self;
     submit_csm_sar vumi_message_id destination_addr pdu_params self;
     submit_csm_udh vumi_message_id destination_addr pdu_params self].
Proof.
  intros Hnone _.
  repeat apply Forall_cons_2; [| | | | apply Forall_nil_2].
  - by apply guarded_submit_sm.
  - by apply guarded_submit_sm_long.
  - by apply guarded_submit_csm_sar.
  - by apply guarded_submit_csm_udh.
Qed.

Lemma no_session_nothing_submitted_witness :
  submissions
    (calls (submit_csm_udh "abc123" "dest_addr"
              (Samples.send Samples.long_text) (Samples.disconnected 7)).2)
  = [].
Proof.
  pose proof (no_session_nothing_submitted (Samples.disconnected 7)
                "abc123" "dest_addr" [] (Samples.send Samples.long_text)
                eq_refl) as Hall.
  rewrite !Forall_cons in Hall.
  destruct Hall as (_ & _ & _ & (_ & _ & Hudh) & _).
  - intros given Hgiven. exists Samples.long_text.
    vm_compute in Hgiven. by injection Hgiven as <-.
  - exact Hudh.
Defined.

(** The "not connected" error and the bind state agree, on every submission
    path: with a session the error is not raised, so a service that says it
    is bound does not raise it; and when a path raises it, [get_bind_state]
    gives [CLOSED_STATE] and [is_bound] gives [False].  ([short_message],
    when given, is a [str].) *)
Theorem not_connected_only_when_closed (bind_state : Type)
    (CLOSED_STATE : bind_state) (state : EsmeProtocol -> bind_state)
    (protocol_is_bound : EsmeProtocol -> bool) (self : SmppService)
    (vumi_message_id destination_addr : string) (long_message : bytes)
    (pdu_params : kwargs) :
  (forall given, pdu_params !! "short_message" = Some given ->
                 exists message, given = VStr message) ->
  Forall (fun run : (exception + list Z) * SmppService =>
            (is_Some (_protocol self) -> run.1 <> inl NotConnected) /\
            (is_bound protocol_is_bound self = true ->
               run.1 <> inl NotConnected) /\
            (run.1 = inl NotConnected ->
               get_bind_state bind_state CLOSED_STATE state self
                 = CLOSED_STATE /\
               is_bound protocol_is_bound self = false))
    [submit_sm vumi_message_id destination_addr pdu_params self;
     submit_sm_long vumi_message_id destination_addr long_message pdu_params
                    self;
     submit_csm_sar vumi_message_id destination_addr pdu_params self;
     submit_csm_udh vumi_message_id destination_addr pdu_params self].
Proof.
  intros _.
  assert (forall run, guarded self run ->
            (is_Some (_protocol self) -> run.1 <> inl NotConnected) /\
            (is_bound protocol_is_bound self = true ->
               run.1 <> inl NotConnected) /\
            (run.1 = inl NotConnected ->
               get_bind_state bind_state CLOSED_STATE state self
                 = CLOSED_STATE /\
               is_bound protocol_is_bound self = false)) as Hguard.
  { intros run [_ Hsession]. unfold is_bound, get_bind_state.
    destruct (_protocol self) as [protocol|].
    - split; [done |]. split; [intros _; by apply Hsession |].
      intros Hraised. by destruct (Hsession ltac:(by eexists)).
    - split; [by intros [? ?] | by split]. }
  repeat apply Forall_cons_2; [| | | | apply Forall_nil_2]; apply Hguard.
  - apply guarded_submit_sm.
  - apply guarded_submit_sm_long.
  - apply guarded_submit_csm_sar.
  - apply guarded_submit_csm_udh.
Qed.

Lemma not_connected_only_when_closed_witness :
  get_bind_state string "CLOSED" (fun _ => "BOUND_TRX"%string)
                 (Samples.disconnected 7) = "CLOSED"%string /\
  is_bound (fun _ => true) (Samples.disconnected 7) = false.
Proof.
  pose proof (not_connected_only_when_closed string "CLOSED"
                (fun _ => "BOUND_TRX"%string) (fun _ => true)
                (Samples.disconnected 7) "abc123" "dest_addr" []
                (Samples.send Samples.elephant)) as Hall.
  rewrite !Forall_cons in Hall.
  destruct Hall as ((_ & _ & Hclosed) & _).
  - intros given Hgiven. exists Samples.elephant.
    vm_compute in Hgiven. by injection Hgiven as <-.
  - apply Hclosed. reflexivity.
Defined.
